(** * Headline Classifier (local notebook): a shallow embedding

    The notebook [custom_tensorflow_keras_nlp/Headline Classifier Local.ipynb]
    is a linear script of library calls.  It is embedded here as a program over
    an error monad whose primitive steps are the calls into pandas, numpy,
    scikit-learn, Keras, ipywidgets and the repository's [util.preprocessing]
    helpers.  A library implementation is a handler answering those calls; the
    theorems quantify over every handler unless they say otherwise.

    Python floats are represented by the rationals they denote ([Q]).  Where
    the framework stores a value in its own precision, what it stores is its
    answer to a call. *)

From Stdlib Require Import String ZArith QArith Qround Lia Bool Arith.
From Stdlib Require Import List Permutation.
Import ListNotations.

Set Implicit Arguments.
Local Open Scope string_scope.
Local Open Scope list_scope.

(** ** Data carried between cells *)

Inductive exn : Type :=
| ValueError
| IndexError
| KeyError
| LibraryError (msg : string).

Definition matrixZ := list (list Z).
Definition matrixQ := list (list Q).

(** What [np.save] is given: an integer or a float array. *)
Inductive ndarray : Type :=
| NdInt (a : matrixZ)
| NdFloat (a : matrixQ).

(** A frame as [pd.read_csv] answers it: the index label of each row (the row
    numbers from 0, or the leading field of each line when the lines have one
    field more than there are names), the column names and the rows. *)
Record DataFrame : Type := mkDataFrame {
  df_index : list Z;
  df_columns : list string;
  df_rows : list (list string)
}.

Record Tokenizer : Type := mkTokenizer {
  word_index : list (string * Z)
}.

Record Session : Type := mkSession { session_region : string }.
Record Widget : Type := mkWidget { widget_children : list string }.

(** ** The Keras objects the notebook builds *)

Inductive activation : Type := relu | softmax.

Inductive layer_kind : Type :=
| KEmbedding (input_dim output_dim input_length : nat)
| KConv1D (filters kernel_size : nat) (act : activation)
| KMaxPooling1D (pool_size : nat)
| KFlatten
| KDropout (rate : Q)
| KDense (units : nat) (act : activation).

(** A layer as it is passed to [model.add]: [weights=] is optional, the other
    keyword arguments are recorded as given. *)
Record LayerSpec : Type := mkLayerSpec {
  ls_name : string;
  ls_kind : layer_kind;
  ls_trainable : bool;
  ls_weights : option (list matrixQ)
}.

(** A layer inside a model: its variables have values. *)
Record Layer : Type := mkLayer {
  layer_name : string;
  layer_kind_of : layer_kind;
  trainable : bool;
  weights : list matrixQ
}.

Inductive Optimizer : Type := RMSprop (learning_rate : Q).

Record Model : Type := mkModel {
  layers : list Layer;
  optimizer : option Optimizer;
  loss : option string;
  metrics : list string
}.

(** The layer constructors of the notebook, with the keyword arguments it uses.
    [trainable] defaults to [True] and [weights] to none. *)
Definition Embedding (input_dim output_dim : nat) (weights : list matrixQ)
    (input_length : nat) (trainable : bool) (name : string) : LayerSpec :=
  mkLayerSpec name (KEmbedding input_dim output_dim input_length) trainable (Some weights).
Definition Conv1D (filters kernel_size : nat) (act : activation) (name : string) : LayerSpec :=
  mkLayerSpec name (KConv1D filters kernel_size act) true None.
Definition MaxPooling1D (pool_size : nat) (name : string) : LayerSpec :=
  mkLayerSpec name (KMaxPooling1D pool_size) true None.
Definition Flatten (name : string) : LayerSpec :=
  mkLayerSpec name KFlatten true None.
Definition Dropout (rate : Q) (name : string) : LayerSpec :=
  mkLayerSpec name (KDropout rate) true None.
Definition Dense (units : nat) (act : activation) (name : string) : LayerSpec :=
  mkLayerSpec name (KDense units act) true None.

Definition Sequential : Model := mkModel [] None None [].

Definition compile (m : Model) (opt : Optimizer) (loss_name : string)
    (metric_names : list string) : Model :=
  mkModel (layers m) (Some opt) (Some loss_name) metric_names.

(** [model.metrics_names] of a compiled model: the loss, then the metrics. *)
Definition metrics_names (m : Model) : list string := "loss" :: metrics m.

(** ** Printed values *)

Inductive pyval : Type :=
| VStr (s : string)
| VFloat (x : Q)
| VStrs (l : list string)
| VVecZ (v : list Z)
| VVecQ (v : list Q)
| VArr (a : ndarray)
| VShape (dims : list nat)
| VDf (df : DataFrame)
| VCounts (c : list (string * nat)).

(** One piece of an f-string: literal text, or a value with its format
    specification.  [print(x)] prints the single piece [Fmt x ""]. *)
Inductive piece : Type :=
| Lit (s : string)
| Fmt (v : pyval) (spec : string).

(** ** Library calls *)

Inductive libE : Type -> Type :=
(* sagemaker *)
| GetExecutionRole : libE string
| SagemakerSession : libE Session
| DefaultBucket (sess : Session) : libE string
(* util.preprocessing *)
| DownloadDataset : libE unit
| DummyEncodeLabels (df : DataFrame) (label : string) : libE (matrixQ * list string)
| TokenizePadDocs (df : DataFrame) (column : string) : libE (matrixZ * Tokenizer)
| GetWordEmbeddings (t : Tokenizer) (dir : string) : libE matrixQ
(* pandas *)
| ReadCsv (path : string) (names : list string) (header : option nat)
    (delimiter : string) : libE DataFrame
| DfHead (df : DataFrame) : libE DataFrame
| ValueCounts (column : list string) : libE (list (string * nat))
(* numpy and os *)
| NpSave (file : string) (arr : ndarray) (allow_pickle : bool) : libE unit
| Makedirs (path : string) (exist_ok : bool) : libE unit
| NpRandomSeed (seed : Z) : libE unit
| RandomStatePermutation (seed : Z) (n : nat) : libE (list nat)
(* Keras *)
| InitializeWeights (k : layer_kind) : libE (list matrixQ)
| SetWeights (k : layer_kind) (given : list matrixQ) : libE (list matrixQ)
| ModelSummary (m : Model) : libE unit
| TrainOnBatch (m : Model) (X : matrixZ) (y : matrixQ) (batch_size epoch step : nat)
    : libE (list (list matrixQ))
| Evaluate (m : Model) (X : matrixZ) (y : matrixQ) : libE (list Q)
| TextsToSequences (t : Tokenizer) (texts : list string) : libE matrixZ
| Predict (m : Model) (x : matrixZ) : libE matrixQ
(* output and widgets *)
| PyPrint (items : list piece) : libE unit
| Display (v : pyval) : libE unit
| InteractManual (value placeholder description width : string) : libE Widget
| SetDescription (w : Widget) (child : nat) (description : string) : libE unit.

(** ** Programs

    Python statements: return, raise, a library call, sequencing and
    [try ... except].  The notebook uses the first four only. *)

Inductive Prog : Type -> Type :=
| Ret {R : Type} (r : R) : Prog R
| Raise {R : Type} (e : exn) : Prog R
| Call {R : Type} (c : libE R) : Prog R
| Bind {A R : Type} (p : Prog A) (k : A -> Prog R) : Prog R
| TryExcept {R : Type} (body : Prog R) (except : exn -> Prog R) : Prog R.

Declare Scope prog_scope.
Delimit Scope prog_scope with prog.
Notation "x <- p ;; q" := (Bind p (fun x => q))
  (at level 61, p at next level, right associativity) : prog_scope.
Notation "' pat <- p ;; q" := (Bind p (fun x => match x with pat => q end))
  (at level 61, pat pattern, p at next level, right associativity) : prog_scope.
Notation "p ;; q" := (Bind p (fun _ => q))
  (at level 61, right associativity) : prog_scope.
Local Open Scope prog_scope.

(** One library call of a run, with what it answered: a value, or the
    exception it raised. *)
Record entry : Type := Entry {
  entry_type : Type;
  entry_call : libE entry_type;
  entry_answer : exn + entry_type
}.
Arguments Entry {entry_type} entry_call entry_answer.

Definition trace := list entry.

(** A library implementation over its own state [W] (file system, random
    generator, network, ...). *)
Definition handler (W : Type) := forall X : Type, libE X -> W -> (exn + X) * W.

Definition outcome (W R : Type) : Type := trace * ((exn + R) * W).

Definition after {W R} (t : trace) (o : outcome W R) : outcome W R :=
  (t ++ fst o, snd o).

Fixpoint run {W R : Type} (h : handler W) (p : Prog R) (w : W) : outcome W R :=
  match p in Prog R0 return outcome W R0 with
  | Ret r => ([], (inr r, w))
  | Raise e => ([], (inl e, w))
  | Call c =>
      match h _ c w with
      | (inl e, w') => ([Entry c (inl e)], (inl e, w'))
      | (inr x, w') => ([Entry c (inr x)], (inr x, w'))
      end
  | Bind p k =>
      match run h p w with
      | (t, (inl e, w')) => (t, (inl e, w'))
      | (t, (inr a, w')) => after t (run h (k a) w')
      end
  | TryExcept body except =>
      match run h body w with
      | (t, (inl e, w')) => after t (run h (except e) w')
      | (t, (inr r, w')) => (t, (inr r, w'))
      end
  end.

Definition trace_of {W R} (o : outcome W R) : trace := fst o.
Definition result_of {W R} (o : outcome W R) : exn + R := fst (snd o).

(** Weakest precondition over every library behaviour: [wp p Q] holds when
    [Q] is true of the trace and result of every run of [p]. *)
Fixpoint wp {R : Type} (p : Prog R) : (trace -> exn + R -> Prop) -> Prop :=
  match p in Prog R0 return (trace -> exn + R0 -> Prop) -> Prop with
  | Ret r => fun Q => Q [] (inr r)
  | Raise e => fun Q => Q [] (inl e)
  | Call c => fun Q =>
      (forall e, Q [Entry c (inl e)] (inl e)) /\
      (forall x, Q [Entry c (inr x)] (inr x))
  | Bind p k => fun Q =>
      wp p (fun t o =>
        match o with
        | inl e => Q t (inl e)
        | inr a => wp (k a) (fun t' o' => Q (t ++ t') o')
        end)
  | TryExcept body except => fun Q =>
      wp body (fun t o =>
        match o with
        | inl e => wp (except e) (fun t' o' => Q (t ++ t') o')
        | inr r => Q t (inr r)
        end)
  end.


(** ** Python-level computations

    Indexing, [np.argmax] and the like make no library call that needs a
    handler; they are functions into [exn + A], injected by [lift]. *)

Definition lift {A : Type} (r : exn + A) : Prog A :=
  match r with
  | inl e => Raise e
  | inr a => Ret a
  end.

Definition and_then {A B : Type} (r : exn + A) (f : A -> exn + B) : exn + B :=
  match r with
  | inl e => inl e
  | inr a => f a
  end.

Fixpoint traverse {A B : Type} (f : A -> exn + B) (l : list A) : exn + list B :=
  match l with
  | [] => inr []
  | a :: l' =>
      and_then (f a) (fun b => and_then (traverse f l') (fun bs => inr (b :: bs)))
  end.

Fixpoint foldM {S A : Type} (f : S -> A -> Prog S) (l : list A) (s : S) : Prog S :=
  match l with
  | [] => Ret s
  | a :: l' => s' <- f s a ;; foldM f l' s'
  end.

(** [l[i]] on a list or array: [IndexError] out of range. *)
Definition index {A : Type} (l : list A) (i : nat) : exn + A :=
  match nth_error l i with
  | Some x => inr x
  | None => inl IndexError
  end.

Fixpoint position (name : string) (cols : list string) : option nat :=
  match cols with
  | [] => None
  | c :: cs => if String.eqb c name then Some 0%nat else option_map S (position name cs)
  end.

(** [df[name]]: [KeyError] when there is no such column. *)
Definition df_column (df : DataFrame) (name : string) : exn + list string :=
  match position name (df_columns df) with
  | None => inl KeyError
  | Some j => inr (map (fun r => nth j r "") (df_rows df))
  end.

(** [series[label]] for an integer label on an integer index: the value of the
    row carrying that label, the values of all such rows when the label
    repeats, [KeyError] when no row carries it.  The position of a row plays
    no part. *)
Definition series_at (index : list Z) (values : list string) (label : Z)
    : exn + pyval :=
  match map snd (filter (fun iv => Z.eqb (fst iv) label) (combine index values)) with
  | [] => inl KeyError
  | [v] => inr (VStr v)
  | vs => inr (VStrs vs)
  end.

(** [a.shape] of a two-dimensional array. *)
Definition shape (a : matrixQ) : list nat := [length a; length (hd [] a)].

(** [np.argmax(a)]: the index, in the flattened array, of the first occurrence
    of the maximum; [ValueError] on an empty array. *)
Fixpoint argmax_from (best : nat) (best_v : Q) (i : nat) (l : list Q) : nat :=
  match l with
  | [] => best
  | x :: xs =>
      if Qle_bool x best_v then argmax_from best best_v (S i) xs
      else argmax_from i x (S i) xs
  end.

Definition np_argmax (a : matrixQ) : exn + nat :=
  match concat a with
  | [] => inl ValueError
  | x :: xs => inr (argmax_from 0 x 1 xs)
  end.

(** Keras [pad_sequences(sequences, maxlen, padding, truncating, value)], as
    documented, for [maxlen >= 1]: a sequence longer than [maxlen] loses tokens
    at the [truncating] side, a shorter one is filled with [value] at the
    [padding] side.  The notebook leaves [truncating] and [value] at their
    defaults, ['pre'] and [0]. *)
Inductive side : Type := pre | post.

Definition pad_row (maxlen : nat) (padding truncating : side) (value : Z)
    (s : list Z) : list Z :=
  let trunc :=
    match truncating with
    | pre => skipn (length s - maxlen) s
    | post => firstn maxlen s
    end in
  let fill := repeat value (maxlen - length trunc) in
  match padding with
  | pre => fill ++ trunc
  | post => trunc ++ fill
  end.

Definition pad_sequences (sequences : matrixZ) (maxlen : nat)
    (padding truncating : side) (value : Z) : matrixZ :=
  map (pad_row maxlen padding truncating value) sequences.

(** The four categories of the dataset, as the notebook names them:
    Business (b), Entertainment (e), Health & Medicine (m) and
    Science & Technology (t). *)
Inductive Category : Type :=
| Business
| Entertainment
| Health
| ScienceTechnology.

Definition categories : list Category :=
  [Business; Entertainment; Health; ScienceTechnology].

Definition category_code (c : Category) : string :=
  match c with
  | Business => "b"
  | Entertainment => "e"
  | Health => "m"
  | ScienceTechnology => "t"
  end.

Definition category_index (c : Category) : nat :=
  match c with
  | Business => 0
  | Entertainment => 1
  | Health => 2
  | ScienceTechnology => 3
  end.

Definition parse_category (s : string) : exn + Category :=
  if String.eqb s "b" then inr Business
  else if String.eqb s "e" then inr Entertainment
  else if String.eqb s "m" then inr Health
  else if String.eqb s "t" then inr ScienceTechnology
  else inl ValueError.

Definition one_hot (n i : nat) : list Q :=
  map (fun j => if Nat.eqb j i then 1%Q else 0%Q) (seq 0 n).

(** Modelled from the spec: [util.preprocessing.dummy_encode_labels] is not
    among the sources.  The spec's data model has "categorical labels (four
    classes)" and "one-hot encoded label vectors": the labels are the four
    category codes, and each row's category becomes the one-hot vector of its
    position among them.  A cell outside the four categories is outside the
    spec's data model and is refused.  The notebook calls the helper as a
    library call; this definition is what that call answers when the library
    follows the spec. *)
Definition dummy_encode_labels (df : DataFrame) (label : string)
    : exn + (matrixQ * list string) :=
  and_then (df_column df label) (fun col =>
  and_then (traverse parse_category col) (fun cats =>
  inr (map (fun c => one_hot (length categories) (category_index c)) cats,
       map category_code categories))).

(** scikit-learn [train_test_split(X, y, test_size, random_state)], as
    documented: the arrays must have one length; the test set takes
    [ceil(test_size * n_samples)] rows and the training set the rest, which
    must not be empty; rows are drawn through one permutation of the row
    numbers from a generator seeded with [random_state], the test rows first. *)
Fixpoint take {A : Type} (X : list A) (idx : list nat) : exn + list A :=
  match idx with
  | [] => inr []
  | i :: rest =>
      and_then (index X i) (fun x =>
      and_then (take X rest) (fun l => inr (x :: l)))
  end.

Record Split (A B : Type) : Type := mkSplit {
  split_X_train : list A;
  split_X_test : list A;
  split_y_train : list B;
  split_y_test : list B
}.

Definition n_test_of (test_size : Q) (n_samples : nat) : nat :=
  Z.to_nat (Qceiling (test_size * inject_Z (Z.of_nat n_samples))).

Definition train_test_split {A B : Type} (X : list A) (y : list B)
    (test_size : Q) (random_state : Z) : Prog (Split A B) :=
  let n_samples := length X in
  if negb (Nat.eqb (length y) n_samples) then Raise ValueError else
  let n_test := n_test_of test_size n_samples in
  let n_train := (n_samples - n_test)%nat in
  if Nat.eqb n_train 0 then Raise ValueError else
  permutation <- Call (RandomStatePermutation random_state n_samples) ;;
  let ind_test := firstn n_test permutation in
  let ind_train := firstn n_train (skipn n_test permutation) in
  X_train <- lift (take X ind_train) ;;
  X_test <- lift (take X ind_test) ;;
  y_train <- lift (take y ind_train) ;;
  y_test <- lift (take y ind_test) ;;
  Ret (mkSplit X_train X_test y_train y_test).

(** [model.add(layer)]: the framework builds the layer's variables.  Given a
    [weights=] argument it checks the shapes against the layer's and stores
    the values in its own precision (float32 unless configured otherwise),
    raising on a mismatch; without one it draws initial values.  Both are the
    framework's doing: the layer holds what the call answers. *)
Definition add (m : Model) (l : LayerSpec) : Prog Model :=
  w <- match ls_weights l with
       | Some w => Call (SetWeights (ls_kind l) w)
       | None => Call (InitializeWeights (ls_kind l))
       end ;;
  Ret (mkModel
         (layers m ++ [mkLayer (ls_name l) (ls_kind l) (ls_trainable l) w])
         (optimizer m) (loss m) (metrics m)).

(** Keras trains the variables of trainable layers only: the optimizer is
    handed those, and its answer replaces them. *)
Fixpoint set_trainable_weights (ls : list Layer) (new : list (list matrixQ))
    : list Layer :=
  match ls with
  | [] => []
  | l :: rest =>
      if trainable l then
        match new with
        | w :: new' =>
            mkLayer (layer_name l) (layer_kind_of l) true w
              :: set_trainable_weights rest new'
        | [] => l :: set_trainable_weights rest []
        end
      else l :: set_trainable_weights rest new
  end.

Definition steps_per_epoch (n batch_size : nat) : nat :=
  ((n + batch_size - 1) / batch_size)%nat.

Definition train_step (X : matrixZ) (y : matrixQ) (batch_size epoch : nat)
    (m : Model) (step : nat) : Prog Model :=
  new <- Call (TrainOnBatch m X y batch_size epoch step) ;;
  Ret (mkModel (set_trainable_weights (layers m) new)
         (optimizer m) (loss m) (metrics m)).

(** [model.fit(X, y, batch_size, epochs)]: [epochs] passes of
    [ceil(len(X) / batch_size)] training steps each. *)
Definition fit (m : Model) (X : matrixZ) (y : matrixQ) (batch_size epochs : nat)
    : Prog Model :=
  foldM (fun m epoch =>
           foldM (train_step X y batch_size epoch)
             (seq 0 (steps_per_epoch (length X) batch_size)) m)
    (seq 0 epochs) m.

(** ** The notebook, cell by cell *)

Definition tab : string := String (Ascii.ascii_of_nat 9) EmptyString.

Definition column_names : list string :=
  ["TITLE"; "URL"; "PUBLISHER"; "CATEGORY"; "STORY"; "HOSTNAME"; "TIMESTAMP"].

(** The globals left by a full run; [classify] reads [tokenizer], [model]
    and [labels]. *)
Record Env : Type := mkEnv {
  df : DataFrame;
  encoded_y : matrixQ;
  labels : list string;
  padded_docs : matrixZ;
  tokenizer : Tokenizer;
  embedding_matrix : matrixQ;
  vocab_size : nat;
  X_train : matrixZ;
  X_test : matrixZ;
  y_train : matrixQ;
  y_test : matrixQ;
  num_classes : nat;
  model : Model;
  scores : list Q
}.

(** Set up execution role and session. *)
Definition setup_session : Prog unit :=
  role <- Call GetExecutionRole ;;
  Call (PyPrint [Fmt (VStr role) ""]) ;;
  sess <- Call SagemakerSession ;;
  s3_bucket <- Call (DefaultBucket sess) ;;
  let s3_prefix := "news" in
  Ret tt.

(** Download the dataset, load it and look at it. *)
Definition load_dataset : Prog DataFrame :=
  Call DownloadDataset ;;
  df <- Call (ReadCsv "data/newsCorpora.csv" column_names None tab) ;;
  head <- Call (DfHead df) ;;
  Call (Display (VDf head)) ;;
  category <- lift (df_column df "CATEGORY") ;;
  counts <- Call (ValueCounts category) ;;
  Call (Display (VCounts counts)) ;;
  Ret df.

(** Dummy encode the labels. *)
Definition encode_labels (df : DataFrame) : Prog (matrixQ * list string) :=
  r <- Call (DummyEncodeLabels df "CATEGORY") ;;
  let encoded_y := fst r in
  let labels := snd r in
  Call (PyPrint [Fmt (VStrs labels) ""]) ;;
  category <- lift (df_column df "CATEGORY") ;;
  c1 <- lift (series_at (df_index df) category 1) ;;
  Call (Display c1) ;;
  y0 <- lift (index encoded_y 0) ;;
  Call (Display (VVecQ y0)) ;;
  Ret (encoded_y, labels).

(** Tokenize and set fixed sequence lengths. *)
Definition tokenize (df : DataFrame) : Prog (matrixZ * Tokenizer) :=
  r <- Call (TokenizePadDocs df "TITLE") ;;
  let padded_docs := fst r in
  let tokenizer := snd r in
  title <- lift (df_column df "TITLE") ;;
  t1 <- lift (series_at (df_index df) title 1) ;;
  Call (Display t1) ;;
  d0 <- lift (index padded_docs 0) ;;
  Call (Display (VVecZ d0)) ;;
  Ret (padded_docs, tokenizer).

(** Import word embeddings and save the matrix. *)
Definition import_embeddings (tokenizer : Tokenizer) : Prog (matrixQ * nat) :=
  embedding_matrix <- Call (GetWordEmbeddings tokenizer "data/embeddings") ;;
  Call (NpSave "./data/embeddings/docs-embedding-matrix"
          (NdFloat embedding_matrix) false) ;;
  let vocab_size := List.length embedding_matrix in
  Call (PyPrint [Fmt (VShape (shape embedding_matrix)) ""]) ;;
  Ret (embedding_matrix, vocab_size).

(** Split train and test sets, and save them. *)
Definition split_and_save (padded_docs : matrixZ) (encoded_y : matrixQ)
    : Prog (Split (list Z) (list Q)) :=
  s <- train_test_split padded_docs encoded_y (2 # 10) 42 ;;
  let X_train := split_X_train s in
  let X_test := split_X_test s in
  let y_train := split_y_train s in
  let y_test := split_y_test s in
  Call (Makedirs "./data/train" true) ;;
  Call (NpSave "./data/train/train_X.npy" (NdInt X_train) true) ;;
  Call (NpSave "./data/train/train_Y.npy" (NdFloat y_train) true) ;;
  Call (Makedirs "./data/test" true) ;;
  Call (NpSave "./data/test/test_X.npy" (NdInt X_test) true) ;;
  Call (NpSave "./data/test/test_Y.npy" (NdFloat y_test) true) ;;
  Ret s.

(** Define the model. *)
Definition define_model (vocab_size : nat) (embedding_matrix : matrixQ)
    (num_classes : nat) : Prog Model :=
  let model := Sequential in
  model <- add model (Embedding vocab_size 100 [embedding_matrix] 40 false "embed") ;;
  model <- add model (Conv1D 128 3 relu "conv_1") ;;
  model <- add model (MaxPooling1D 5 "maxpool_1") ;;
  model <- add model (Flatten "flat_1") ;;
  model <- add model (Dropout (3 # 10) "dropout_1") ;;
  model <- add model (Dense 128 relu "dense_1") ;;
  model <- add model (Dense num_classes softmax "out_1") ;;
  let optimizer := RMSprop (1 # 1000) in
  let model := compile model optimizer "binary_crossentropy" ["acc"] in
  Call (ModelSummary model) ;;
  Ret model.

Definition metric_piece (names : list string) (scores : list Q) (i : nat)
    : exn + list piece :=
  and_then (index names i) (fun name =>
  and_then (index scores i) (fun score =>
  inr [Fmt (VStr name) ""; Lit "="; Fmt (VFloat score) ".5f"])).

Fixpoint join (sep : piece) (parts : list (list piece)) : list piece :=
  match parts with
  | [] => []
  | [p] => p
  | p :: rest => p ++ sep :: join sep rest
  end.

Definition validation_results (m : Model) (scores : list Q) : exn + list piece :=
  and_then
    (traverse (metric_piece (metrics_names m) scores)
       (seq 0 (List.length (metrics_names m))))
    (fun parts => inr (Lit "Validation results: " :: join (Lit "; ") parts)).

(** Fit (train) and evaluate the model. *)
Definition fit_and_evaluate (model : Model) (X_train X_test : matrixZ)
    (y_train y_test : matrixQ) : Prog (Model * list Q) :=
  Call (PyPrint [Fmt (VStr "Training model") ""]) ;;
  model <- fit model X_train y_train 16 5 ;;
  Call (PyPrint [Fmt (VStr "Evaluating model") ""]) ;;
  scores <- Call (Evaluate model X_test y_test) ;;
  line <- lift (validation_results model scores) ;;
  Call (PyPrint line) ;;
  Ret (model, scores).

(** Use the model (locally): classify a headline and print the results. *)
Definition classify (tokenizer : Tokenizer) (model : Model) (labels : list string)
    (text : string) : Prog unit :=
  encoded_example <- Call (TextsToSequences tokenizer [text]) ;;
  let max_length := 40%nat in
  let padded_example := pad_sequences encoded_example max_length post pre 0 in
  result <- Call (Predict model padded_example) ;;
  Call (PyPrint [Fmt (VArr (NdFloat result)) ""]) ;;
  ix <- lift (np_argmax result) ;;
  label <- lift (index labels ix) ;;
  row0 <- lift (index result 0) ;;
  confidence <- lift (index row0 ix) ;;
  Call (PyPrint [Lit "Predicted class: '"; Fmt (VStr label) "";
                 Lit "' with confidence "; Fmt (VFloat confidence) ".2%"]).

Definition install_widget : Prog unit :=
  interaction <- Call (InteractManual
                         "The markets were bullish after news of the merger"
                         "Type a news headline..." "Headline:" "99%") ;;
  Call (SetDescription interaction 1 "Classify!").

(** Running every cell in order. *)
Definition notebook : Prog Env :=
  setup_session ;;
  df <- load_dataset ;;
  r <- encode_labels df ;;
  let encoded_y := fst r in
  let labels := snd r in
  r <- tokenize df ;;
  let padded_docs := fst r in
  let tokenizer := snd r in
  r <- import_embeddings tokenizer ;;
  let embedding_matrix := fst r in
  let vocab_size := snd r in
  s <- split_and_save padded_docs encoded_y ;;
  let seed := 42%Z in
  Call (NpRandomSeed seed) ;;
  let num_classes := List.length labels in
  model <- define_model vocab_size embedding_matrix num_classes ;;
  r <- fit_and_evaluate model (split_X_train s) (split_X_test s)
         (split_y_train s) (split_y_test s) ;;
  let model := fst r in
  install_widget ;;
  Ret (mkEnv df encoded_y labels padded_docs tokenizer embedding_matrix vocab_size
         (split_X_train s) (split_X_test s) (split_y_train s) (split_y_test s)
         num_classes model (snd r)).

(** The widget's callback on the globals of a finished run. *)
Definition callback (env : Env) (text : string) : Prog unit :=
  classify (tokenizer env) (model env) (labels env) text.

(** ** Single precision

    The value a float32 variable holds for a given number: the nearest number
    with a 24-bit significand, ties to the even one, for numbers within the
    float32 range (subnormal ones included). *)

Definition round_half_even (q : Q) : Z :=
  let n := Qnum q in
  let d := Zpos (Qden q) in
  let low := (n / d)%Z in
  match Z.compare (2 * (n mod d)) d with
  | Lt => low
  | Gt => (low + 1)%Z
  | Eq => if Z.even low then low else (low + 1)%Z
  end.

Definition float32_of_positive (a : Q) : Q :=
  let e0 := (Z.log2 (Qnum a) - Z.log2 (Zpos (Qden a)))%Z in
  let e := if Qle_bool (Qpower 2 e0) a then e0 else (e0 - 1)%Z in
  let ulp := Qpower 2 (Z.max e (-126) - 23) in
  (inject_Z (round_half_even (a / ulp)) * ulp)%Q.

Definition float32 (x : Q) : Q :=
  match Qnum x with
  | Z0 => 0%Q
  | Zpos _ => Qred (float32_of_positive x)
  | Zneg _ => Qred (- float32_of_positive (- x))
  end.

(** ** A small library implementation to run the notebook on

    The world is the list of arrays written so far.  Every call succeeds but
    the building of a layer from weights of the wrong shape; the data are a
    ten-headline corpus whose lines carry their number as index, a two-word
    vocabulary, embeddings that single precision holds exactly, and a model
    that answers one fixed distribution. *)

Module Demo.

Definition World := list (string * ndarray).

Definition row (title category : string) : list string :=
  [title; "http://example.org"; "Example"; category; "story"; "example.org"; "0"].

Definition corpus : DataFrame :=
  mkDataFrame (map Z.of_nat (seq 1 10)) column_names
    [row "Fed holds rates" "b"; row "Film wins award" "e";
     row "Flu season peaks" "m"; row "Chip gets faster" "t";
     row "Bank posts loss" "b"; row "Singer on tour" "e";
     row "New drug approved" "m"; row "Phone unveiled" "t";
     row "Markets rally" "b"; row "Probe reaches Mars" "t"].

Definition vocabulary : Tokenizer := mkTokenizer [("markets", 1%Z); ("rally", 2%Z)].

Definition glove : matrixQ :=
  [repeat 0%Q 100; repeat (1 # 2)%Q 100; repeat (-3 # 4)%Q 100].

(** What the framework stores for the [weights=] argument of a layer: the
    float32 values of an embedding matrix of the layer's shape. *)
Definition stored (k : layer_kind) (given : list matrixQ) : exn + list matrixQ :=
  match k, given with
  | KEmbedding input_dim output_dim _, [m] =>
      if Nat.eqb (List.length m) input_dim
         && forallb (fun r => Nat.eqb (List.length r) output_dim) m
      then inr [map (map float32) m]
      else inl ValueError
  | _, _ => inl ValueError
  end.

Definition distribution : list Q := [1 # 10; 7 # 10; 1 # 10; 1 # 10]%Q.

(** A permutation that depends on the seed only: a rotation by the seed. *)
Definition rotation (seed : Z) (n : nat) : list nat :=
  let k := (Z.to_nat (Z.abs seed) mod Nat.max 1 n)%nat in
  skipn k (seq 0 n) ++ firstn k (seq 0 n).

Definition bump (ws : list matrixQ) : list matrixQ :=
  map (map (map (Qplus 1))) ws.

Definition library : handler World :=
  fun X c =>
    match c in libE X0 return World -> (exn + X0) * World with
    | GetExecutionRole => fun w => (inr "arn:aws:iam::role/demo", w)
    | SagemakerSession => fun w => (inr (mkSession "eu-west-1"), w)
    | DefaultBucket _ => fun w => (inr "sagemaker-demo", w)
    | DownloadDataset => fun w => (inr tt, w)
    | DummyEncodeLabels d label => fun w => (dummy_encode_labels d label, w)
    | TokenizePadDocs d _ => fun w =>
        (inr (map (fun _ => repeat 1%Z 40) (df_rows d), vocabulary), w)
    | GetWordEmbeddings _ _ => fun w => (inr glove, w)
    | ReadCsv _ _ _ _ => fun w => (inr corpus, w)
    | DfHead d => fun w =>
        (inr (mkDataFrame (firstn 5 (df_index d)) (df_columns d)
                (firstn 5 (df_rows d))), w)
    | ValueCounts _ => fun w => (inr [("b", 3); ("t", 3); ("e", 2); ("m", 2)]%nat, w)
    | NpSave f a _ => fun w => (inr tt, w ++ [(f, a)])
    | Makedirs _ _ => fun w => (inr tt, w)
    | NpRandomSeed _ => fun w => (inr tt, w)
    | RandomStatePermutation seed n => fun w => (inr (rotation seed n), w)
    | InitializeWeights _ => fun w => (inr [[[0]]]%Q, w)
    | SetWeights k given => fun w => (stored k given, w)
    | ModelSummary _ => fun w => (inr tt, w)
    | TrainOnBatch m _ _ _ _ _ => fun w =>
        (inr (map (fun l => bump (weights l)) (filter trainable (layers m))), w)
    | Evaluate _ _ _ => fun w => (inr [1 # 4; 9 # 10]%Q, w)
    | TextsToSequences _ texts => fun w =>
        (inr (map (fun s => [Z.of_nat (String.length s); 2%Z]) texts), w)
    | Predict _ x => fun w => (inr (map (fun _ => distribution) x), w)
    | PyPrint _ => fun w => (inr tt, w)
    | Display _ => fun w => (inr tt, w)
    | InteractManual _ _ _ _ => fun w => (inr (mkWidget ["text"; "button"]), w)
    | SetDescription _ _ _ => fun w => (inr tt, w)
    end.

(** Ten documents and their labels, for the split. *)
Definition docs : matrixZ := map (fun i => [Z.of_nat i]) (seq 0 10).
Definition targets : matrixQ :=
  map (one_hot 4) [0; 1; 2; 3; 0; 1; 2; 3; 0; 3]%nat.

(** The same library with the dataset file missing. *)
Definition library_without_file : handler World :=
  fun X c =>
    match c in libE X0 return World -> (exn + X0) * World with
    | ReadCsv _ _ _ _ => fun w => (inl (LibraryError "FileNotFoundError"), w)
    | c' => library c'
    end.





End Demo.

(** ** What a trace shows *)

(** Arrays written by [np.save] calls that returned. *)
Definition np_save_of (e : entry) : list (string * ndarray * bool) :=
  match entry_call e, entry_answer e with
  | NpSave f a p, inr _ => [(f, a, p)]
  | _, _ => []
  end.
Definition np_saves (t : trace) : list (string * ndarray * bool) :=
  flat_map np_save_of t.

(** Arguments of the [pd.read_csv] calls made. *)
Definition read_csv_of (e : entry)
    : list (string * list string * option nat * string) :=
  match entry_call e with
  | ReadCsv p n hd d => [(p, n, hd, d)]
  | _ => []
  end.
Definition read_csv_calls (t : trace) := flat_map read_csv_of t.

(** Answers of the label encoder, with what it was asked. *)
Definition encoded_labels_of (e : entry)
    : list (DataFrame * string * (matrixQ * list string)) :=
  match entry_call e in libE X
        return exn + X -> list (DataFrame * string * (matrixQ * list string)) with
  | DummyEncodeLabels d label =>
      fun answer =>
        match answer with
        | inr r => [(d, label, r)]
        | inl _ => []
        end
  | _ => fun _ => []
  end (entry_answer e).
Definition encoded_labels (t : trace)
    : list (DataFrame * string * (matrixQ * list string)) :=
  flat_map encoded_labels_of t.

(** Texts the tokenizer encoded, with the sequences it answered. *)
Definition tokenized_of (e : entry) : list (list string * matrixZ) :=
  match entry_call e in libE X return exn + X -> list (list string * matrixZ) with
  | TextsToSequences _ texts =>
      fun answer =>
        match answer with
        | inr encoded => [(texts, encoded)]
        | inl _ => []
        end
  | _ => fun _ => []
  end (entry_answer e).
Definition tokenized (t : trace) : list (list string * matrixZ) :=
  flat_map tokenized_of t.

(** Arrays handed to [model.predict]. *)
Definition predict_input_of (e : entry) : list matrixZ :=
  match entry_call e with
  | Predict _ x => [x]
  | _ => []
  end.
Definition predict_inputs (t : trace) : list matrixZ :=
  flat_map predict_input_of t.

(** The model at each training step, and at each evaluation. *)
Definition trained_model_of (e : entry) : list Model :=
  match entry_call e with
  | TrainOnBatch m _ _ _ _ _ => [m]
  | _ => []
  end.
Definition trained_models (t : trace) : list Model :=
  flat_map trained_model_of t.

Definition evaluated_model_of (e : entry) : list Model :=
  match entry_call e with
  | Evaluate m _ _ => [m]
  | _ => []
  end.
Definition evaluated_models (t : trace) : list Model :=
  flat_map evaluated_model_of t.

(** Exceptions raised by library calls, in order. *)
Definition raised_of (e : entry) : list exn :=
  match entry_answer e with
  | inl x => [x]
  | inr _ => []
  end.
Definition raised (t : trace) : list exn := flat_map raised_of t.

(** Layers built from a [weights=] argument: the layer's kind, the weights
    given and what the framework stored for them. *)
Definition weights_set_of (e : entry)
    : list (layer_kind * list matrixQ * list matrixQ) :=
  match entry_call e in libE X
        return exn + X -> list (layer_kind * list matrixQ * list matrixQ) with
  | SetWeights k given =>
      fun answer =>
        match answer with
        | inr kept => [(k, given, kept)]
        | inl _ => []
        end
  | _ => fun _ => []
  end (entry_answer e).
Definition weights_set (t : trace)
    : list (layer_kind * list matrixQ * list matrixQ) :=
  flat_map weights_set_of t.

(** What the seeded generator was asked for: the seed and the number of
    rows. *)
Definition permutation_request_of (e : entry) : list (Z * nat) :=
  match entry_call e with
  | RandomStatePermutation seed n => [(seed, n)]
  | _ => []
  end.
Definition permutation_requests (t : trace) : list (Z * nat) :=
  flat_map permutation_request_of t.

(** The permutations it drew. *)
Definition permutation_of (e : entry) : list (list nat) :=
  match entry_call e in libE X return exn + X -> list (list nat) with
  | RandomStatePermutation _ _ =>
      fun answer =>
        match answer with
        | inr permutation => [permutation]
        | inl _ => []
        end
  | _ => fun _ => []
  end (entry_answer e).
Definition permutations (t : trace) : list (list nat) :=
  flat_map permutation_of t.

(** Answers of the document tokenizer, with what it was asked. *)
Definition padded_of (e : entry)
    : list (DataFrame * string * (matrixZ * Tokenizer)) :=
  match entry_call e in libE X
        return exn + X -> list (DataFrame * string * (matrixZ * Tokenizer)) with
  | TokenizePadDocs d column =>
      fun answer =>
        match answer with
        | inr r => [(d, column, r)]
        | inl _ => []
        end
  | _ => fun _ => []
  end (entry_answer e).

(** Scores that [model.evaluate] answered, with the model evaluated. *)
Definition scored_of (e : entry) : list (Model * list Q) :=
  match entry_call e in libE X return exn + X -> list (Model * list Q) with
  | Evaluate m _ _ =>
      fun answer =>
        match answer with
        | inr scores => [(m, scores)]
        | inl _ => []
        end
  | _ => fun _ => []
  end (entry_answer e).

(** ** Vocabulary of the statements *)

(** What training cannot change in a layer: its name, kind and [trainable]
    flag, and its variables when it is not trainable. *)
Definition frozen_view (l : Layer)
    : string * layer_kind * bool * option (list matrixQ) :=
  (layer_name l, layer_kind_of l, trainable l,
   if trainable l then None else Some (weights l)).

Definition same_but_trained (m0 m : Model) : Prop :=
  map frozen_view (layers m) = map frozen_view (layers m0) /\
  optimizer m = optimizer m0 /\
  loss m = loss m0 /\
  metrics m = metrics m0.

(** The variables of the layer called [name], when that layer is frozen. *)
Definition frozen_weights (name : string) (m : Model) : option (list matrixQ) :=
  match find (fun l => String.eqb (layer_name l) name) (layers m) with
  | Some l => if trainable l then None else Some (weights l)
  | None => None
  end.

(** A training step on a model that differs from [m0] in trained variables
    only. *)
Definition train_entry (m0 : Model) (e : entry) : Prop :=
  exists m X y batch_size epoch step answer,
    e = Entry (TrainOnBatch m X y batch_size epoch step) answer /\
    same_but_trained m0 m.

(** The topology the notebook declares. *)
Definition topology (vocab_size num_classes : nat) : list layer_kind :=
  [KEmbedding vocab_size 100 40;
   KConv1D 128 3 relu;
   KMaxPooling1D 5;
   KFlatten;
   KDropout (3 # 10);
   KDense 128 relu;
   KDense num_classes softmax].

Definition the_read_csv_call : string * list string * option nat * string :=
  ("data/newsCorpora.csv", column_names, None, tab).

Definition saved_paths : list string :=
  ["./data/embeddings/docs-embedding-matrix";
   "./data/train/train_X.npy";
   "./data/train/train_Y.npy";
   "./data/test/test_X.npy";
   "./data/test/test_Y.npy"].

Definition saved_path (s : string * ndarray * bool) : string := fst (fst s).

(** The five arrays of a finished run, as [np.save] was given them. *)
Definition saved_arrays (env : Env) : list (string * ndarray * bool) :=
  [("./data/embeddings/docs-embedding-matrix", NdFloat (embedding_matrix env), false);
   ("./data/train/train_X.npy", NdInt (X_train env), true);
   ("./data/train/train_Y.npy", NdFloat (y_train env), true);
   ("./data/test/test_X.npy", NdInt (X_test env), true);
   ("./data/test/test_Y.npy", NdFloat (y_test env), true)].

(** The rows of [X] at the positions [idx] that exist. *)
Definition picked {A : Type} (X : list A) (idx : list nat) : list A :=
  flat_map (fun i => match nth_error X i with Some x => [x] | None => [] end) idx.


(** Calls into the deep-learning framework. *)
Definition keras_call (e : entry) : bool :=
  match entry_call e with
  | InitializeWeights _ => true
  | SetWeights _ _ => true
  | ModelSummary _ => true
  | TrainOnBatch _ _ _ _ _ _ => true
  | Evaluate _ _ _ => true
  | Predict _ _ => true
  | _ => false
  end.

Definition layer_names : list string :=
  ["embed"; "conv_1"; "maxpool_1"; "flat_1"; "dropout_1"; "dense_1"; "out_1"].

(** Building the model: only framework calls, and the declared layers. *)
Definition post_define (vocab_size num_classes : nat) (t : trace)
    (o : exn + Model) : Prop :=
  Forall (fun e => keras_call e = true) t /\
  match o with
  | inr m =>
      map layer_kind_of (layers m) = topology vocab_size num_classes /\
      map layer_name (layers m) = layer_names
  | inl _ => True
  end.

(** A vector of length [n] with one entry equal to 1 and the others 0. *)
Definition is_one_hot (n : nat) (v : list Q) : Prop :=
  List.length v = n /\
  exists i, (i < n)%nat /\
    forall j, (j < n)%nat ->
      nth_error v j = Some (if Nat.eqb j i then 1%Q else 0%Q).

(** Postconditions of a notebook run, on its trace and its result. *)

(** Saving: the [np.save] calls that returned are the first few of the five
    expected ones, in order, and all five when the run finishes. *)
Definition post_saves (t : trace) (o : exn + Env) : Prop :=
  (exists k, map saved_path (np_saves t) = firstn k saved_paths) /\
  match o with
  | inr env => np_saves t = saved_arrays env
  | inl _ => True
  end.

(** Loading: at most one [pd.read_csv] call, the expected one, and exactly
    that one when the run finishes. *)
Definition post_read (t : trace) (o : exn + Env) : Prop :=
  (read_csv_calls t = [] \/ read_csv_calls t = [the_read_csv_call]) /\
  match o with
  | inr _ => read_csv_calls t = [the_read_csv_call]
  | inl _ => True
  end.

(** The model that is trained and evaluated is the compiled one but for the
    variables of trainable layers: its embedding holds [kept]. *)
Definition compiled_like (n_vocab : nat) (kept : list matrixQ) (nc : nat)
    (m : Model) : Prop :=
  map layer_kind_of (layers m) = topology n_vocab nc /\
  frozen_weights "embed" m = Some kept /\
  optimizer m = Some (RMSprop (1 # 1000)) /\
  loss m = Some "binary_crossentropy" /\
  metrics m = ["acc"].

(** Training and evaluation: the one layer built from given weights is the
    embedding, built from the matrix that was saved; every model that is
    trained or evaluated is like the compiled one over what the framework
    stored for that matrix, and so is the model of a finished run. *)
Definition post_model (t : trace) (o : exn + Env) : Prop :=
  (trained_models t ++ evaluated_models t <> [] ->
   exists em kept,
     In ("./data/embeddings/docs-embedding-matrix", NdFloat em, false) (np_saves t) /\
     In (KEmbedding (List.length em) 100 40, [em], kept) (weights_set t)) /\
  (forall k given kept,
     In (k, given, kept) (weights_set t) ->
     exists em nc,
       k = KEmbedding (List.length em) 100 40 /\
       given = [em] /\
       In ("./data/embeddings/docs-embedding-matrix", NdFloat em, false)
         (np_saves t) /\
       Forall (compiled_like (List.length em) kept nc)
         (trained_models t ++ evaluated_models t) /\
       match o with
       | inr env =>
           compiled_like (List.length em) kept nc (model env) /\
           em = embedding_matrix env /\
           nc = num_classes env
       | inl _ => True
       end) /\
  match o with
  | inr env =>
      exists kept,
        weights_set t
          = [(KEmbedding (List.length (embedding_matrix env)) 100 40,
              [embedding_matrix env], kept)]
  | inl _ => True
  end.

(** The rows [train_test_split] gives to the test set and to the training
    set, from the permutation drawn. *)
Definition test_rows (test_size : Q) (n : nat) (permutation : list nat)
    : list nat :=
  firstn (n_test_of test_size n) permutation.

Definition train_rows (test_size : Q) (n : nat) (permutation : list nat)
    : list nat :=
  firstn (n - n_test_of test_size n) (skipn (n_test_of test_size n) permutation).

(** The split: the generator is only ever asked with the seed 42, and the
    four arrays of a finished run are the rows of the padded documents and of
    the encoded labels at the places the one permutation drawn gives them. *)
Definition post_split (t : trace) (o : exn + Env) : Prop :=
  Forall (fun r => fst r = 42%Z) (permutation_requests t) /\
  match o with
  | inr env =>
      let n := List.length (padded_docs env) in
      List.length (encoded_y env) = n /\
      permutation_requests t = [(42%Z, n)] /\
      exists permutation,
        permutations t = [permutation] /\
        take (padded_docs env) (train_rows (2 # 10) n permutation)
          = inr (X_train env) /\
        take (padded_docs env) (test_rows (2 # 10) n permutation)
          = inr (X_test env) /\
        take (encoded_y env) (train_rows (2 # 10) n permutation)
          = inr (y_train env) /\
        take (encoded_y env) (test_rows (2 # 10) n permutation)
          = inr (y_test env)
  | inl _ => True
  end.

(** The globals of a finished run. *)
Definition post_env (t : trace) (o : exn + Env) : Prop :=
  match o with
  | inr env =>
      encoded_labels t = [(df env, "CATEGORY", (encoded_y env, labels env))] /\
      vocab_size env = List.length (embedding_matrix env) /\
      num_classes env = List.length (labels env) /\
      map layer_kind_of (layers (model env))
        = topology (vocab_size env) (num_classes env)
  | inl _ => True
  end.

(** ** Further vocabulary: what is trained on, evaluated and printed *)

(** The data and batch size of each training step. *)
Definition train_data_of (e : entry) : list (matrixZ * matrixQ * nat) :=
  match entry_call e with
  | TrainOnBatch _ X y batch_size _ _ => [(X, y, batch_size)]
  | _ => []
  end.
Definition train_data (t : trace) : list (matrixZ * matrixQ * nat) :=
  flat_map train_data_of t.

(** The epoch and step number of each training step. *)
Definition train_index_of (e : entry) : list (nat * nat) :=
  match entry_call e with
  | TrainOnBatch _ _ _ _ epoch step => [(epoch, step)]
  | _ => []
  end.
Definition train_indices (t : trace) : list (nat * nat) :=
  flat_map train_index_of t.

(** What [model.evaluate] was called on. *)
Definition evaluation_of (e : entry) : list (Model * matrixZ * matrixQ) :=
  match entry_call e with
  | Evaluate m X y => [(m, X, y)]
  | _ => []
  end.
Definition evaluations (t : trace) : list (Model * matrixZ * matrixQ) :=
  flat_map evaluation_of t.

(** Lines handed to [print]. *)
Definition printed_of (e : entry) : list (list piece) :=
  match entry_call e with
  | PyPrint items => [items]
  | _ => []
  end.
Definition printed (t : trace) : list (list piece) := flat_map printed_of t.

(** Answers of [model.predict], with the arrays asked about. *)
Definition prediction_of (e : entry) : list (matrixZ * matrixQ) :=
  match entry_call e in libE X return exn + X -> list (matrixZ * matrixQ) with
  | Predict _ x =>
      fun answer =>
        match answer with
        | inr result => [(x, result)]
        | inl _ => []
        end
  | _ => fun _ => []
  end (entry_answer e).
Definition predictions (t : trace) : list (matrixZ * matrixQ) :=
  flat_map prediction_of t.

(** Frames that [pd.read_csv] answered. *)
Definition frame_read_of (e : entry) : list DataFrame :=
  match entry_call e in libE X return exn + X -> list DataFrame with
  | ReadCsv _ _ _ _ =>
      fun answer =>
        match answer with
        | inr d => [d]
        | inl _ => []
        end
  | _ => fun _ => []
  end (entry_answer e).

(** The calls [classify] is written with. *)
Definition classify_call (e : entry) : bool :=
  match entry_call e with
  | TextsToSequences _ _ => true
  | Predict _ _ => true
  | PyPrint _ => true
  | _ => false
  end.

(** A training step on the data [X], [y] in batches of [batch_size], on a
    model that differs from [m0] in trained variables only. *)
Definition train_entry_on (X : matrixZ) (y : matrixQ) (batch_size : nat)
    (m0 : Model) (e : entry) : Prop :=
  exists m epoch step answer,
    e = Entry (TrainOnBatch m X y batch_size epoch step) answer /\
    same_but_trained m0 m.

(** The steps of a training that runs to its end, epoch by epoch. *)
Definition fit_schedule (n batch_size epochs : nat) : list (nat * nat) :=
  flat_map (fun epoch =>
              flat_map (fun step => [(epoch, step)])
                (seq 0 (steps_per_epoch n batch_size)))
    (seq 0 epochs).

(** One metric of the validation line: [name=score], the score with five
    decimals. *)
Definition metric_text (ns : string * Q) : list piece :=
  [Fmt (VStr (fst ns)) ""; Lit "="; Fmt (VFloat (snd ns)) ".5f"].

(** The name and the [trainable] flag of each layer. *)
Definition layer_flags (m : Model) : list (string * bool) :=
  map (fun l => (layer_name l, trainable l)) (layers m).


(** ** The notebook's own failures

    Between the library calls the notebook indexes into what they answered,
    and [train_test_split] validates its arguments.  These are the steps, in
    the order of the cells, on the answers a trace records. *)













(** Training and evaluation data of a run: what is trained on was saved as
    the training split, what is evaluated on was saved as the test split. *)
Definition post_training (t : trace) (o : exn + Env) : Prop :=
  (forall X y batch_size,
     In (X, y, batch_size) (train_data t) ->
     batch_size = 16%nat /\
     In ("./data/train/train_X.npy", NdInt X, true) (np_saves t) /\
     In ("./data/train/train_Y.npy", NdFloat y, true) (np_saves t)) /\
  (forall m X y,
     In (m, X, y) (evaluations t) ->
     In ("./data/test/test_X.npy", NdInt X, true) (np_saves t) /\
     In ("./data/test/test_Y.npy", NdFloat y, true) (np_saves t)) /\
  match o with
  | inr env =>
      Forall (fun d => d = (X_train env, y_train env, 16%nat)) (train_data t) /\
      evaluations t = [(model env, X_test env, y_test env)] /\
      train_indices t = fit_schedule (List.length (X_train env)) 16 5 /\
      layer_flags (model env)
        = [("embed", false); ("conv_1", true); ("maxpool_1", true);
           ("flat_1", true); ("dropout_1", true); ("dense_1", true);
           ("out_1", true)]
  | inl _ => True
  end.

(** Libraries for the edge cases. *)
Module Edge.

(** A tokenizer that knows none of the words: every text becomes the empty
    sequence. *)
Definition library_no_known_word : handler Demo.World :=
  fun X c =>
    match c in libE X0 return Demo.World -> (exn + X0) * Demo.World with
    | TextsToSequences _ texts => fun w => (inr (map (fun _ => []) texts), w)
    | c' => Demo.library c'
    end.

(** A model whose two best classes tie. *)
Definition tie : list Q := [1 # 10; 4 # 10; 4 # 10; 1 # 10]%Q.

Definition library_tie : handler Demo.World :=
  fun X c =>
    match c in libE X0 return Demo.World -> (exn + X0) * Demo.World with
    | Predict _ x => fun w => (inr (map (fun _ => tie) x), w)
    | c' => Demo.library c'
    end.

End Edge.

(** ** The program logic is sound *)

Lemma wp_sound : forall R (p : Prog R) (Q : trace -> exn + R -> Prop),
  wp p Q ->
  forall W (h : handler W) (w : W),
    Q (trace_of (run h p w)) (result_of (run h p w)).
Proof.
  unfold trace_of, result_of.
  induction p as [R r | R e | R c | A R p IHp k IHk | R body IHb except IHe];
    intros Q HQ W h w; simpl in *.
  - exact HQ.
  - exact HQ.
  - destruct HQ as [He Hx].
    destruct (h R c w) as [[e | x] w']; simpl; auto.
  - specialize (IHp _ HQ W h w).
    destruct (run h p w) as [t [[e | a] w']]; simpl in *.
    + exact IHp.
    + specialize (IHk _ _ IHp W h w').
      destruct (run h (k a) w') as [t' [o' w'']]; simpl in *. exact IHk.
  - specialize (IHb _ HQ W h w).
    destruct (run h body w) as [t [[e | a] w']]; simpl in *.
    + specialize (IHe _ _ IHb W h w').
      destruct (run h (except e) w') as [t' [o' w'']]; simpl in *. exact IHe.
    + exact IHb.
Qed.

Lemma wp_mono : forall R (p : Prog R) (Q Q' : trace -> exn + R -> Prop),
  (forall t o, Q t o -> Q' t o) -> wp p Q -> wp p Q'.
Proof.
  induction p as [R r | R e | R c | A R p IHp k IHk | R body IHb except IHe];
    intros Q Q' HQ H'; simpl in *.
  - auto.
  - auto.
  - destruct H' as [He Hx]. split; auto.
  - eapply IHp; [| exact H'].
    intros t [e | a] Ht; simpl in *; auto.
    eapply IHk; [| exact Ht]. intros; auto.
  - eapply IHb; [| exact H'].
    intros t [e | a] Ht; simpl in *; auto.
    eapply IHe; [| exact Ht]. intros; auto.
Qed.

(** Every answer recorded in a trace is the library's. *)
Lemma run_answers : forall R (p : Prog R) W (h : handler W) (w : W),
  Forall (fun e => exists w', fst (h _ (entry_call e) w') = entry_answer e)
    (trace_of (run h p w)).
Proof.
  unfold trace_of.
  induction p as [R r | R e | R c | A R p IHp k IHk | R body IHb except IHe];
    intros W h w; simpl.
  - constructor.
  - constructor.
  - destruct (h R c w) as [[e | x] w'] eqn:Hc; simpl;
      (apply Forall_cons; [| apply Forall_nil]);
      exists w; simpl; rewrite Hc; reflexivity.
  - specialize (IHp W h w).
    destruct (run h p w) as [t [[e | a] w']]; simpl in *; [exact IHp |].
    apply Forall_app. split; [exact IHp | apply IHk].
  - specialize (IHb W h w).
    destruct (run h body w) as [t [[e | a] w']]; simpl in *; [| exact IHb].
    apply Forall_app. split; [exact IHb | apply IHe].
Qed.

(** ** Lemmas on the Python-level computations *)

Lemma wp_lift : forall A (r : exn + A) (Q : trace -> exn + A -> Prop),
  wp (lift r) Q <-> Q [] r.
Proof. intros A [e | a] Q; simpl; tauto. Qed.

Lemma run_lift : forall W (h : handler W) A (r : exn + A) (w : W),
  run h (lift r) w = ([], (r, w)).
Proof. intros W h A [e | a] w; reflexivity. Qed.

Section Argmax.

(** The scan of [argmax_from] over [before ++ l], when [before] has been read
    and [best] is the first index of its maximum [best_v]. *)
Lemma argmax_from_correct : forall (l before : list Q) (best : nat) (best_v : Q),
  nth_error before best = Some best_v ->
  (forall p, In p before -> (p <= best_v)%Q) ->
  (forall j p, (j < best)%nat -> nth_error before j = Some p -> (p < best_v)%Q) ->
  let r := argmax_from best best_v (List.length before) l in
  exists c,
    nth_error (before ++ l) r = Some c /\
    (forall p, In p (before ++ l) -> (p <= c)%Q) /\
    (forall j p, (j < r)%nat -> nth_error (before ++ l) j = Some p -> (p < c)%Q).
Proof.
  induction l as [| x xs IH]; intros before best best_v Hb Hmax Hfirst; simpl.
  - exists best_v. rewrite app_nil_r. auto.
  - assert (Hlen : List.length (before ++ [x]) = S (List.length before)).
    { rewrite length_app. simpl. lia. }
    replace (before ++ x :: xs) with ((before ++ [x]) ++ xs)
      by (rewrite <- app_assoc; reflexivity).
    rewrite <- Hlen.
    destruct (Qle_bool x best_v) eqn:Hcmp.
    + apply Qle_bool_iff in Hcmp.
      apply IH.
      * rewrite nth_error_app1; [exact Hb |].
        apply nth_error_Some. rewrite Hb. discriminate.
      * intros p Hp. apply in_app_or in Hp. destruct Hp as [Hp | [Hp | []]].
        -- auto.
        -- subst p. exact Hcmp.
      * intros j p Hj Hp.
        assert (Hbl : (best < List.length before)%nat).
        { apply nth_error_Some. rewrite Hb. discriminate. }
        rewrite nth_error_app1 in Hp by lia. eauto.
    + assert (Hlt : (best_v < x)%Q).
      { apply Qnot_le_lt. intros Hle. apply Qle_bool_iff in Hle. congruence. }
      apply IH.
      * rewrite nth_error_app2 by lia. rewrite Nat.sub_diag. reflexivity.
      * intros p Hp. apply in_app_or in Hp. destruct Hp as [Hp | [Hp | []]].
        -- apply Qle_trans with best_v; [auto | apply Qlt_le_weak; exact Hlt].
        -- subst p. apply Qle_refl.
      * intros j p Hj Hp.
        rewrite nth_error_app1 in Hp by lia.
        apply Qle_lt_trans with best_v; [| exact Hlt].
        apply Hmax. eapply nth_error_In; eauto.
Qed.

(** [np.argmax] of a non-empty vector: an index of that vector, holding its
    maximum, and the first to do so. *)
Lemma np_argmax_row : forall probs : list Q,
  probs <> [] ->
  exists ix c,
    np_argmax [probs] = inr ix /\
    nth_error probs ix = Some c /\
    (forall p, In p probs -> (p <= c)%Q) /\
    (forall j p, (j < ix)%nat -> nth_error probs j = Some p -> (p < c)%Q).
Proof.
  intros [| x xs] Hne; [congruence |].
  unfold np_argmax. simpl. rewrite app_nil_r.
  destruct (@argmax_from_correct xs [x] 0%nat x) as [c [Hc [Hmax Hfirst]]].
  - reflexivity.
  - intros p [Hp | []]. subst p. apply Qle_refl.
  - intros j p Hj. lia.
  - simpl in *. exists (argmax_from 0 x 1 xs), c. auto.
Qed.

End Argmax.

Section Padding.

Lemma pad_row_length : forall (maxlen : nat) (padding truncating : side)
    (value : Z) (s : list Z),
  List.length (pad_row maxlen padding truncating value s) = maxlen.
Proof.
  intros maxlen padding truncating value s. unfold pad_row.
  destruct truncating, padding;
    rewrite length_app, repeat_length;
    rewrite ?length_skipn, ?length_firstn; lia.
Qed.

(** With post-padding and the default truncation: a short sequence is followed
    by zeros, a long one keeps its last [maxlen] tokens. *)
Lemma pad_row_post_short : forall (maxlen : nat) (s : list Z),
  (List.length s <= maxlen)%nat ->
  pad_row maxlen post pre 0 s = s ++ repeat 0%Z (maxlen - List.length s).
Proof.
  intros maxlen s Hs. unfold pad_row.
  replace (List.length s - maxlen)%nat with 0%nat by lia. reflexivity.
Qed.

Lemma pad_row_post_long : forall (maxlen : nat) (s : list Z),
  (maxlen <= List.length s)%nat ->
  pad_row maxlen post pre 0 s = skipn (List.length s - maxlen) s.
Proof.
  intros maxlen s Hs. unfold pad_row.
  rewrite length_skipn.
  replace (maxlen - (List.length s - (List.length s - maxlen)))%nat with 0%nat by lia.
  simpl. apply app_nil_r.
Qed.

Lemma pad_sequences_rows : forall (sequences : matrixZ) (maxlen : nat)
    (padding truncating : side) (value : Z),
  List.length (pad_sequences sequences maxlen padding truncating value)
    = List.length sequences /\
  Forall (fun r => List.length r = maxlen)
    (pad_sequences sequences maxlen padding truncating value).
Proof.
  intros. unfold pad_sequences. split.
  - apply length_map.
  - apply Forall_forall. intros r Hr. apply in_map_iff in Hr.
    destruct Hr as [s [Hs _]]. subst r. apply pad_row_length.
Qed.

End Padding.

(** ** Training *)

Lemma set_trainable_weights_frozen : forall (ls : list Layer) (new : list (list matrixQ)),
  map frozen_view (set_trainable_weights ls new) = map frozen_view ls.
Proof.
  induction ls as [| l rest IH]; intros new; simpl.
  - reflexivity.
  - destruct (trainable l) eqn:Ht.
    + destruct new as [| w new']; simpl; rewrite IH; [reflexivity |].
      unfold frozen_view at 1 3. simpl. rewrite Ht. reflexivity.
    + simpl. rewrite IH. reflexivity.
Qed.

Lemma same_but_trained_refl : forall m, same_but_trained m m.
Proof. intros m. repeat split. Qed.

Lemma same_but_trained_trans : forall m0 m1 m2,
  same_but_trained m0 m1 -> same_but_trained m1 m2 -> same_but_trained m0 m2.
Proof.
  intros m0 m1 m2 [A1 [B1 [C1 D1]]] [A2 [B2 [C2 D2]]].
  repeat split; congruence.
Qed.

Lemma frozen_weights_view : forall (name : string) (ls ls' : list Layer),
  map frozen_view ls' = map frozen_view ls ->
  forall o p l q, frozen_weights name (mkModel ls' o p l)
                  = frozen_weights name (mkModel ls q p l).
Proof.
  intros name ls. unfold frozen_weights. simpl.
  induction ls as [| a ls IH]; intros [| a' ls'] Hmap o p l q; simpl in *;
    try discriminate; [reflexivity |].
  inversion Hmap as [[Hn Hk Ht Hw Hrest]].
  rewrite Hn.
  destruct (String.eqb (layer_name a) name).
  - rewrite Ht in *. destruct (trainable a); congruence.
  - apply (IH ls' Hrest o p l q).
Qed.

Lemma same_but_trained_frozen_weights : forall (name : string) (m0 m : Model),
  same_but_trained m0 m -> frozen_weights name m = frozen_weights name m0.
Proof.
  intros name [ls0 o0 p0 l0] [ls o p l] [Hmap _]. simpl in Hmap.
  unfold frozen_weights. simpl.
  apply (@frozen_weights_view name ls0 ls Hmap o p l o).
Qed.

Lemma same_but_trained_kinds : forall (m0 m : Model),
  same_but_trained m0 m ->
  map layer_kind_of (layers m) = map layer_kind_of (layers m0).
Proof.
  intros m0 m [Hmap _].
  assert (H : forall ls, map layer_kind_of ls
                         = map (fun v => snd (fst (fst v))) (map frozen_view ls)).
  { intros ls. rewrite map_map. reflexivity. }
  rewrite !H, Hmap. reflexivity.
Qed.

Lemma wp_foldM : forall S A (f : S -> A -> Prog S) (E : entry -> Prop)
    (Inv : S -> Prop) (l : list A) (s : S),
  Inv s ->
  (forall s a, Inv s ->
     wp (f s a) (fun t o =>
       Forall E t /\ match o with inr s' => Inv s' | inl _ => True end)) ->
  wp (foldM f l s) (fun t o =>
    Forall E t /\ match o with inr s' => Inv s' | inl _ => True end).
Proof.
  intros S A f E Inv l. induction l as [| a l IH]; intros s Hs Hf; simpl.
  - split; [constructor | exact Hs].
  - eapply wp_mono; [| apply (Hf s a Hs)].
    intros t [e | s'] [Ht Ho]; simpl.
    + split; [exact Ht | exact I].
    + eapply wp_mono; [| apply (IH s' Ho Hf)].
      intros t' o' [Ht' Ho']. split; [| exact Ho'].
      apply Forall_app. split; assumption.
Qed.

(** Every step of [fit] is a training step on a model that differs from the
    initial one in trained variables only, and so does the model it returns. *)
Lemma fit_spec : forall (m : Model) (X : matrixZ) (y : matrixQ)
    (batch_size epochs : nat),
  wp (fit m X y batch_size epochs) (fun t o =>
    Forall (train_entry m) t /\
    match o with inr m' => same_but_trained m m' | inl _ => True end).
Proof.
  intros m X y batch_size epochs. unfold fit.
  apply wp_foldM with (Inv := same_but_trained m);
    [apply same_but_trained_refl |].
  intros m1 epoch H1.
  apply wp_foldM with (Inv := same_but_trained m); [exact H1 |].
  intros m2 step H2. unfold train_step. simpl. split.
  - intros e. split; [| exact I].
    constructor; [| constructor].
    exists m2, X, y, batch_size, epoch, step, (inl e). split; [reflexivity | exact H2].
  - intros new. split.
    + constructor; [| constructor].
      exists m2, X, y, batch_size, epoch, step, (inr new).
      split; [reflexivity | exact H2].
    + eapply same_but_trained_trans; [exact H2 |].
      repeat split. simpl. apply set_trainable_weights_frozen.
Qed.

(** ** Rules for stepping through a program *)

Lemma wp_bind_call : forall A R (c : libE A) (k : A -> Prog R)
    (Q : trace -> exn + R -> Prop),
  (forall e, Q [Entry c (inl e)] (inl e)) ->
  (forall x, wp (k x) (fun t o => Q (Entry c (inr x) :: t) o)) ->
  wp (Bind (Call c) k) Q.
Proof. intros A R c k Q He Hx. simpl. split; assumption. Qed.

Lemma wp_bind_lift : forall A R (r : exn + A) (k : A -> Prog R)
    (Q : trace -> exn + R -> Prop),
  match r with
  | inl e => Q [] (inl e)
  | inr a => wp (k a) Q
  end ->
  wp (Bind (lift r) k) Q.
Proof.
  intros A R [e | a] k Q H; simpl; [exact H |].
  eapply wp_mono; [| exact H]. intros t o Ht. exact Ht.
Qed.

Lemma wp_bind_ret : forall A R (a : A) (k : A -> Prog R)
    (Q : trace -> exn + R -> Prop),
  wp (k a) Q -> wp (Bind (Ret a) k) Q.
Proof.
  intros A R a k Q H. simpl.
  eapply wp_mono; [| exact H]. intros t o Ht. exact Ht.
Qed.

Lemma wp_bind_raise : forall A R (e : exn) (k : A -> Prog R)
    (Q : trace -> exn + R -> Prop),
  Q [] (inl e) -> wp (Bind (Raise e) k) Q.
Proof. intros A R e k Q H. exact H. Qed.

Lemma wp_bind_assoc : forall A B R (p : Prog A) (k1 : A -> Prog B)
    (k2 : B -> Prog R) (Q : trace -> exn + R -> Prop),
  wp (Bind p (fun a => Bind (k1 a) k2)) Q -> wp (Bind (Bind p k1) k2) Q.
Proof.
  intros A B R p k1 k2 Q H. simpl in *.
  eapply wp_mono; [| exact H].
  intros t [e | a] Ht; simpl in *; [exact Ht |].
  eapply wp_mono; [| exact Ht].
  intros t' [e | b] Ht'; simpl in *; [exact Ht' |].
  eapply wp_mono; [| exact Ht'].
  intros t'' o Ho. rewrite <- app_assoc. exact Ho.
Qed.

Lemma wp_bind_fit : forall R (m : Model) (X : matrixZ) (y : matrixQ)
    (batch_size epochs : nat) (k : Model -> Prog R)
    (Q : trace -> exn + R -> Prop),
  (forall t e, Forall (train_entry m) t -> Q t (inl e)) ->
  (forall t m', Forall (train_entry m) t -> same_but_trained m m' ->
     wp (k m') (fun t' o => Q (t ++ t') o)) ->
  wp (Bind (fit m X y batch_size epochs) k) Q.
Proof.
  intros R m X y batch_size epochs k Q He Hk. simpl.
  eapply wp_mono; [| apply fit_spec].
  intros t [e | m'] [Ht Hm]; simpl; auto.
Qed.

Ltac notebook_unfold :=
  unfold notebook, setup_session, load_dataset, encode_labels, tokenize,
    import_embeddings, split_and_save, define_model, fit_and_evaluate,
    install_widget, train_test_split, add;
  cbv beta iota zeta delta
    [ls_weights ls_name ls_kind ls_trainable
     Embedding Conv1D MaxPooling1D Flatten Dropout Dense].

Ltac wp_step :=
  lazymatch goal with
  | |- wp (Bind (Bind _ _) _) _ => apply wp_bind_assoc
  | |- wp (Bind (Call _) _) _ =>
      apply wp_bind_call; [intro | intro; cbv beta]
  | |- wp (Bind (lift ?r) _) _ =>
      apply wp_bind_lift;
      let E := fresh "E" in destruct r eqn:E; cbv beta
  | |- wp (Bind (Ret _) _) _ =>
      apply wp_bind_ret; cbv beta;
      cbn [layers optimizer loss metrics app compile Sequential]
  | |- wp (Bind (Raise _) _) _ => apply wp_bind_raise; cbv beta
  | |- wp (Bind (if ?b then _ else _) _) _ =>
      let E := fresh "E" in destruct b eqn:E
  | |- wp (Bind (fit _ _ _ _ _) _) _ =>
      apply wp_bind_fit;
      [ let t := fresh "t_fit" in let Ht := fresh "Hfit" in
        intros t ? Ht
      | let t := fresh "t_fit" in let Ht := fresh "Hfit" in
        let Hm := fresh "Hmodel" in
        intros t ? Ht Hm; cbv beta ]
  | |- wp (Call _) _ => cbn [wp]; split; intro
  | |- wp (Ret ?r) ?Q => change (Q [] (inr r)); cbv beta
  end.

(** ** Runs of the whole notebook *)

Lemma train_entries_queries : forall (m : Model) (t : trace),
  Forall (train_entry m) t ->
  np_saves t = [] /\
  read_csv_calls t = [] /\
  evaluated_models t = [] /\
  Forall (same_but_trained m) (trained_models t).
Proof.
  intros m t H. induction H as [| e t He Ht [IH1 [IH2 [IH3 IH4]]]].
  - repeat split; constructor.
  - destruct He as [m' [X [y [b [ep [st [ans [He Hm]]]]]]]]. subst e.
    unfold np_saves, read_csv_calls, evaluated_models, trained_models in *.
    simpl. rewrite IH1, IH2, IH3.
    repeat split; try reflexivity.
    constructor; assumption.
Qed.

Lemma train_entries_no_labels : forall (m : Model) (t : trace),
  Forall (train_entry m) t -> flat_map encoded_labels_of t = [].
Proof.
  intros m t H. induction H as [| e t He Ht IH]; [reflexivity |].
  destruct He as [m' [X [y [b [ep [st [ans [He Hm]]]]]]]]. subst e.
  simpl. exact IH.
Qed.

(** Training steps are no other call. *)
Lemma train_entries_only : forall (m : Model) (t : trace),
  Forall (train_entry m) t ->
  flat_map weights_set_of t = [] /\
  flat_map permutation_request_of t = [] /\
  flat_map permutation_of t = [] /\
  flat_map padded_of t = [] /\
  flat_map scored_of t = [] /\
  flat_map frame_read_of t = [] /\
  flat_map encoded_labels_of t = [].
Proof.
  intros m t H.
  induction H as [| e t He Ht [IH1 [IH2 [IH3 [IH4 [IH5 [IH6 IH7]]]]]]].
  - repeat split.
  - destruct He as [m' [X [y [b [ep [st [ans [He Hm]]]]]]]]. subst e.
    simpl. repeat split; assumption.
Qed.

Ltac use_fit :=
  match goal with
  | H : Forall (train_entry _) _ |- _ =>
      let H1 := fresh "Hsaves" in
      let H2 := fresh "Hreads" in
      let H3 := fresh "Hevals" in
      let H4 := fresh "Htrained" in
      destruct (train_entries_queries H) as [H1 [H2 [H3 H4]]]
  | _ => idtac
  end.

Lemma compiled_like_trained : forall (n_vocab : nat) (kept : list matrixQ)
    (nc : nat) (m0 m : Model),
  compiled_like n_vocab kept nc m0 -> same_but_trained m0 m ->
  compiled_like n_vocab kept nc m.
Proof.
  intros n_vocab kept nc m0 m [Hk [Hw [Ho [Hl Hm]]]] Hsame.
  pose proof (same_but_trained_kinds Hsame) as Hk'.
  pose proof (same_but_trained_frozen_weights "embed" Hsame) as Hw'.
  destruct Hsame as [_ [Ho' [Hl' Hm']]].
  repeat split; congruence.
Qed.

Lemma compiled_like_all : forall (n_vocab : nat) (kept : list matrixQ)
    (nc : nat) (m0 : Model) (ms : list Model),
  compiled_like n_vocab kept nc m0 -> Forall (same_but_trained m0) ms ->
  Forall (compiled_like n_vocab kept nc) ms.
Proof.
  intros n_vocab kept nc m0 ms H0 Hms.
  eapply Forall_impl; [| exact Hms].
  intros m Hm. exact (compiled_like_trained H0 Hm).
Qed.

Ltac queries_simpl :=
  use_fit;
  unfold np_saves, read_csv_calls, trained_models, evaluated_models in *;
  simpl; rewrite ?flat_map_app; simpl;
  repeat match goal with
         | H : flat_map _ _ = [] |- _ => rewrite H
         end;
  simpl.

Lemma notebook_saves : wp notebook post_saves.
Proof.
  notebook_unfold.
  repeat wp_step.
  all: unfold post_saves; queries_simpl.
  all: split;
    [ first [ exists 0%nat; reflexivity | exists 1%nat; reflexivity
            | exists 2%nat; reflexivity | exists 3%nat; reflexivity
            | exists 4%nat; reflexivity | exists 5%nat; reflexivity ]
    | try exact I; try reflexivity ].
Qed.

Lemma notebook_read : wp notebook post_read.
Proof.
  notebook_unfold.
  repeat wp_step.
  all: unfold post_read; queries_simpl.
  all: split;
    [ first [ left; reflexivity | right; reflexivity ]
    | try exact I; try reflexivity ].
Qed.

Lemma notebook_env : wp notebook post_env.
Proof.
  notebook_unfold.
  repeat wp_step.
  all: unfold post_env; try exact I.
  cbn [df encoded_y labels embedding_matrix vocab_size num_classes model fst snd].
  repeat split.
  - use_fit. unfold encoded_labels. simpl. rewrite flat_map_app.
    match goal with H : Forall (train_entry _) _ |- _ =>
      rewrite (train_entries_no_labels H) end.
    simpl.
    match goal with |- [(_, _, ?p)] = _ => destruct p end. reflexivity.
  - match goal with H : same_but_trained _ _ |- _ =>
      rewrite (same_but_trained_kinds H) end.
    reflexivity.
Qed.

Lemma notebook_model : wp notebook post_model.
Proof.
  notebook_unfold.
  repeat wp_step.
  all: unfold post_model; use_fit;
    try match goal with
        | H : Forall (train_entry _) _ |- _ =>
            let H1 := fresh "Hset" in
            destruct (train_entries_only H) as [H1 _]
        end;
    unfold np_saves, read_csv_calls, trained_models, evaluated_models,
      weights_set in *;
    simpl; rewrite ?flat_map_app; simpl;
    repeat match goal with
           | H : flat_map _ _ = [] |- _ => rewrite H
           end;
    simpl.
  all: split;
    [ first [ intros Hne; exfalso; apply Hne; reflexivity
            | intros _; do 2 eexists; split; left; reflexivity ]
    | ].
  all: split; [| first [exact I | eexists; reflexivity]].
  all: intros k given kept Hin;
    repeat match goal with
           | H : False |- _ => destruct H
           | H : _ \/ _ |- _ => destruct H as [H | H]
           | H : (_, _, _) = (_, _, _) |- _ => first [discriminate H | inversion H; clear H; subst]
           end.
  all: eexists; try match goal with
       | H : Forall (same_but_trained ?m0) _ |- _ =>
           match m0 with
           | context [KDense ?n softmax] => exists n
           end
       end; try (exists 0%nat);
       (split; [reflexivity |]); (split; [reflexivity |]);
       (split; [left; reflexivity |]).
  all: try match goal with
       | H : Forall (same_but_trained ?m0) _ |- context [compiled_like ?nv ?k ?n] =>
           assert (H0 : compiled_like nv k n m0) by (repeat split; reflexivity);
           pose proof (compiled_like_all H0 H) as Hall
       end.
  all: repeat split;
    repeat (apply Forall_app; split);
    try assumption; try (constructor; [| constructor]); try constructor;
    try (eapply compiled_like_trained; eassumption).
Qed.

(** ** The callback [classify] *)

Ltac print_returns Hprint :=
  match goal with
  | |- context [?h unit (PyPrint ?items) ?w] =>
      let r := fresh "r" in
      let w' := fresh "w" in
      let E := fresh "E" in
      let HP := fresh "HP" in
      pose proof (Hprint items w) as HP;
      destruct (h unit (PyPrint items) w) as [r w'] eqn:E;
      simpl in HP; subst r; simpl
  end.

(** C1. For every input string, when the tokenizer and the model answer (the
    model with one row of class probabilities, one per label) and printing
    works, [classify] asks the model for the probabilities of that string's
    padded token sequence and prints a label with a confidence: the label is
    [labels[ix]] and the confidence is [result[0][ix]] for the one index
    [ix = np.argmax(result)], which holds the largest probability. *)
Theorem classify_prints_argmax_label :
  forall W (h : handler W) (tokenizer : Tokenizer) (model : Model)
         (labels : list string) (text : string) (w w1 w2 : W)
         (encoded : matrixZ) (probs : list Q),
    h _ (TextsToSequences tokenizer [text]) w = (inr encoded, w1) ->
    h _ (Predict model (pad_sequences encoded 40 post pre 0)) w1
      = (inr [probs], w2) ->
    (forall items w', fst (h _ (PyPrint items) w') = inr tt) ->
    List.length probs = List.length labels ->
    probs <> [] ->
    exists (ix : nat) (label : string) (confidence : Q),
      np_argmax [probs] = inr ix /\
      nth_error labels ix = Some label /\
      nth_error probs ix = Some confidence /\
      (forall p, In p probs -> (p <= confidence)%Q) /\
      trace_of (run h (classify tokenizer model labels text) w) =
        [Entry (TextsToSequences tokenizer [text]) (inr encoded);
         Entry (Predict model (pad_sequences encoded 40 post pre 0)) (inr [probs]);
         Entry (PyPrint [Fmt (VArr (NdFloat [probs])) ""]) (inr tt);
         Entry (PyPrint [Lit "Predicted class: '"; Fmt (VStr label) "";
                         Lit "' with confidence ";
                         Fmt (VFloat confidence) ".2%"]) (inr tt)] /\
      result_of (run h (classify tokenizer model labels text) w) = inr tt.
Proof.
  intros W h tokenizer model labels text w w1 w2 encoded probs
    Htok Hpred Hprint Hlen Hne.
  destruct (np_argmax_row Hne) as [ix [c [Hix [Hc [Hmax _]]]]].
  assert (Hlt : (ix < List.length labels)%nat).
  { rewrite <- Hlen. apply nth_error_Some. rewrite Hc. discriminate. }
  destruct (nth_error labels ix) as [label |] eqn:Hlabel;
    [| apply nth_error_Some in Hlt; congruence].
  exists ix, label, c.
  repeat (split; [assumption |]).
  assert (Hrun : exists w',
    run h (classify tokenizer model labels text) w =
      ([Entry (TextsToSequences tokenizer [text]) (inr encoded);
        Entry (Predict model (pad_sequences encoded 40 post pre 0)) (inr [probs]);
        Entry (PyPrint [Fmt (VArr (NdFloat [probs])) ""]) (inr tt);
        Entry (PyPrint [Lit "Predicted class: '"; Fmt (VStr label) "";
                        Lit "' with confidence "; Fmt (VFloat c) ".2%"]) (inr tt)],
       (inr tt, w'))).
  { unfold classify. simpl.
    rewrite Htok. simpl. rewrite Hpred. simpl.
    print_returns Hprint.
    rewrite run_lift, Hix. simpl.
    rewrite run_lift. unfold index at 1. rewrite Hlabel. simpl.
    rewrite run_lift. unfold index. rewrite Hc. simpl.
    print_returns Hprint.
    eexists. reflexivity. }
  destruct Hrun as [w' Hrun]. rewrite Hrun. split; reflexivity.
Qed.

Lemma classify_prints_argmax_label_witness :
  exists (ix : nat) (label : string) (confidence : Q),
    np_argmax [Demo.distribution] = inr ix /\
    nth_error ["b"; "e"; "m"; "t"] ix = Some label /\
    nth_error Demo.distribution ix = Some confidence /\
    (forall p, In p Demo.distribution -> (p <= confidence)%Q) /\
    trace_of (run Demo.library
                (classify Demo.vocabulary Sequential ["b"; "e"; "m"; "t"]
                   "Markets rally") []) =
      [Entry (TextsToSequences Demo.vocabulary ["Markets rally"])
         (inr [[13; 2]%Z]);
       Entry (Predict Sequential (pad_sequences [[13; 2]%Z] 40 post pre 0))
         (inr [Demo.distribution]);
       Entry (PyPrint [Fmt (VArr (NdFloat [Demo.distribution])) ""]) (inr tt);
       Entry (PyPrint [Lit "Predicted class: '"; Fmt (VStr label) "";
                       Lit "' with confidence ";
                       Fmt (VFloat confidence) ".2%"]) (inr tt)] /\
    result_of (run Demo.library
                 (classify Demo.vocabulary Sequential ["b"; "e"; "m"; "t"]
                    "Markets rally") []) = inr tt.
Proof.
  apply (@classify_prints_argmax_label Demo.World Demo.library Demo.vocabulary
           Sequential ["b"; "e"; "m"; "t"] "Markets rally" [] [] []
           [[13; 2]%Z] Demo.distribution).
  - reflexivity.
  - reflexivity.
  - intros items w'. reflexivity.
  - reflexivity.
  - discriminate.
Defined.

Lemma classify_tokenizes_once : forall tokenizer model labels text,
  wp (classify tokenizer model labels text)
    (fun t _ =>
       tokenized t = [] \/
       exists encoded,
         tokenized t = [([text], encoded)] /\
         predict_inputs t = [pad_sequences encoded 40 post pre 0]).
Proof.
  intros. unfold classify.
  repeat wp_step; simpl;
    first [left; reflexivity | right; eexists; split; reflexivity].
Qed.

(** C4. [classify] gives the tokenizer the one string, pads what it answers
    with [pad_sequences(maxlen=40, padding="post")] and hands that, and
    nothing else, to [model.predict].  The tokenizer is the first call of a
    run; when it answers, the second call is [model.predict] on the padded
    answer, which has as many rows as the answer, each of exactly 40 entries.
    A sequence of at most 40 tokens is followed by zeros, a longer one is cut
    down to 40 tokens. *)
Theorem classify_pads_input_to_40 :
  forall W (h : handler W) (tokenizer : Tokenizer) (model : Model)
         (labels : list string) (text : string) (w w1 : W) (encoded : matrixZ),
    h _ (TextsToSequences tokenizer [text]) w = (inr encoded, w1) ->
    let t := trace_of (run h (classify tokenizer model labels text) w) in
    let padded_example := pad_sequences encoded 40 post pre 0 in
    nth_error t 0
      = Some (Entry (TextsToSequences tokenizer [text]) (inr encoded)) /\
    (exists answer,
       nth_error t 1 = Some (Entry (Predict model padded_example) answer)) /\
    tokenized t = [([text], encoded)] /\
    predict_inputs t = [padded_example] /\
    List.length padded_example = List.length encoded /\
    Forall (fun r => List.length r = 40%nat) padded_example /\
    (forall s : list Z,
       List.length (pad_row 40 post pre 0 s) = 40%nat /\
       ((List.length s <= 40)%nat ->
          pad_row 40 post pre 0 s = s ++ repeat 0%Z (40 - List.length s)) /\
       ((40 <= List.length s)%nat ->
          pad_row 40 post pre 0 s = skipn (List.length s - 40) s)).
Proof.
  intros W h tokenizer model labels text w w1 encoded Htok t padded_example.
  assert (Hcalls : exists answer rest,
            t = Entry (TextsToSequences tokenizer [text]) (inr encoded)
                  :: Entry (Predict model padded_example) answer :: rest).
  { subst t. unfold classify, trace_of. cbn [run]. rewrite Htok.
    unfold after. cbn [fst snd app].
    fold padded_example.
    destruct (h _ (Predict model padded_example) w1) as [[e | result] w2];
      cbn [fst snd app]; do 2 eexists; reflexivity. }
  destruct Hcalls as [answer [rest Ht]].
  pose proof (@wp_sound _ _ _ (classify_tokenizes_once tokenizer model labels text)
                _ h w) as Honce.
  fold t in Honce. rewrite Ht in Honce.
  destruct Honce as [Hnone | [enc [Henc Hin]]]; [discriminate Hnone |].
  assert (Heq : enc = encoded).
  { unfold tokenized in Henc. simpl in Henc. inversion Henc. reflexivity. }
  subst enc. rewrite <- Ht in Henc, Hin.
  split; [rewrite Ht; reflexivity |].
  split; [exists answer; rewrite Ht; reflexivity |].
  split; [exact Henc |].
  split; [exact Hin |].
  split; [apply pad_sequences_rows |].
  split; [apply pad_sequences_rows |].
  intros s. split; [apply pad_row_length |].
  split; [apply pad_row_post_short | apply pad_row_post_long].
Qed.

Lemma classify_pads_input_to_40_witness :
  predict_inputs
    (trace_of (run Demo.library
                 (classify Demo.vocabulary Sequential ["b"; "e"; "m"; "t"]
                    "Markets rally") []))
  = [[[13; 2] ++ repeat 0 38]%Z].
Proof.
  apply (proj1 (proj2 (proj2 (proj2
           (@classify_pads_input_to_40 Demo.World Demo.library Demo.vocabulary
              Sequential ["b"; "e"; "m"; "t"] "Markets rally" [] []
              [[13; 2]%Z] eq_refl))))).
Defined.

(** ** The train/test split *)

Section Split.

Lemma n_test_of_fifth : forall n : nat,
  (n <= 5 * n_test_of (2 # 10) n)%nat /\ (5 * n_test_of (2 # 10) n < n + 5)%nat.
Proof.
  intros n. unfold n_test_of.
  change (Qceiling ((2 # 10) * inject_Z (Z.of_nat n)))
    with (- (- (2 * Z.of_nat n) / 10))%Z.
  pose proof (Z.div_mod (- (2 * Z.of_nat n)) 10) as Hdiv.
  pose proof (Z.mod_pos_bound (- (2 * Z.of_nat n)) 10) as Hmod.
  lia.
Qed.

Lemma take_picked : forall A (X : list A) (idx : list nat),
  Forall (fun i => (i < List.length X)%nat) idx ->
  take X idx = inr (picked X idx).
Proof.
  intros A X idx H. induction H as [| i idx Hi Hidx IH]; simpl.
  - reflexivity.
  - unfold index. apply nth_error_Some in Hi.
    destruct (nth_error X i) as [x |]; [| congruence].
    simpl. rewrite IH. reflexivity.
Qed.

Lemma picked_length : forall A (X : list A) (idx : list nat),
  Forall (fun i => (i < List.length X)%nat) idx ->
  List.length (picked X idx) = List.length idx.
Proof.
  intros A X idx H. induction H as [| i idx Hi Hidx IH]; simpl.
  - reflexivity.
  - apply nth_error_Some in Hi.
    destruct (nth_error X i) as [x |]; [| congruence].
    simpl. rewrite IH. reflexivity.
Qed.

Lemma picked_all : forall A (before X : list A),
  picked (before ++ X) (seq (List.length before) (List.length X)) = X.
Proof.
  intros A before X. revert before.
  induction X as [| x X IH]; intros before; simpl.
  - reflexivity.
  - rewrite nth_error_app2 by lia. rewrite Nat.sub_diag. simpl.
    f_equal.
    specialize (IH (before ++ [x])).
    rewrite <- app_assoc, length_app in IH. simpl in IH.
    rewrite Nat.add_1_r in IH. exact IH.
Qed.

Lemma picked_combine : forall A B (X : list A) (y : list B) (idx : list nat),
  List.length y = List.length X ->
  picked (combine X y) idx = combine (picked X idx) (picked y idx).
Proof.
  intros A B X y idx Hlen. induction idx as [| i idx IH]; simpl.
  - reflexivity.
  - unfold picked in *. rewrite IH. clear IH.
    assert (H : nth_error (combine X y) i =
                match nth_error X i, nth_error y i with
                | Some a, Some b => Some (a, b)
                | _, _ => None
                end).
    { revert y Hlen i. induction X as [| a X IHX]; intros [| b y] Hlen [| i];
        simpl in *; try reflexivity; try discriminate.
      apply IHX. lia. }
    rewrite H.
    destruct (nth_error X i) as [a |] eqn:Ha;
      destruct (nth_error y i) as [b |] eqn:Hb; simpl; try reflexivity.
    + apply nth_error_None in Hb.
      assert (i < List.length X)%nat by (apply nth_error_Some; congruence). lia.
    + apply nth_error_None in Ha.
      assert (i < List.length y)%nat by (apply nth_error_Some; congruence). lia.
Qed.

Lemma picked_permutation : forall A (X : list A) (idx : list nat),
  Permutation idx (seq 0 (List.length X)) -> Permutation (picked X idx) X.
Proof.
  intros A X idx H.
  rewrite <- (picked_all [] X) at 2. simpl.
  unfold picked. apply Permutation_flat_map. exact H.
Qed.

Lemma picked_app : forall A (X : list A) (a b : list nat),
  picked X (a ++ b) = picked X a ++ picked X b.
Proof. intros. apply flat_map_app. Qed.

End Split.

Lemma take_inr_picked : forall A (X : list A) (idx : list nat) (l : list A),
  take X idx = inr l -> l = picked X idx.
Proof.
  intros A X idx. induction idx as [| i idx IH]; intros l H; simpl in *.
  - inversion H. reflexivity.
  - unfold index in H.
    destruct (nth_error X i) as [x |]; simpl in H; [| discriminate].
    destruct (take X idx) as [e | l']; simpl in H; [discriminate |].
    inversion H. rewrite (IH l' eq_refl). reflexivity.
Qed.

(** The rows selected through a permutation of the row numbers: a fifth of
    them, rounded up, for the test set, and every row once in all. *)
Lemma split_rows_partition : forall A B (X : list A) (y : list B)
    (permutation : list nat),
  List.length y = List.length X ->
  Permutation permutation (seq 0 (List.length X)) ->
  let n := List.length X in
  let X_train := picked X (train_rows (2 # 10) n permutation) in
  let X_test := picked X (test_rows (2 # 10) n permutation) in
  let y_train := picked y (train_rows (2 # 10) n permutation) in
  let y_test := picked y (test_rows (2 # 10) n permutation) in
  (n <= 5 * List.length X_test)%nat /\
  (5 * List.length X_test < n + 5)%nat /\
  (List.length X_train + List.length X_test = n)%nat /\
  List.length y_train = List.length X_train /\
  List.length y_test = List.length X_test /\
  Permutation (X_train ++ X_test) X /\
  Permutation (y_train ++ y_test) y /\
  Permutation (combine X_train y_train ++ combine X_test y_test) (combine X y).
Proof.
  intros A B X y perm Hy Hperm n. cbv zeta.
  unfold train_rows, test_rows.
  set (n_test := n_test_of (2 # 10) n).
  destruct (n_test_of_fifth n) as [Hlo Hhi]. fold n_test in Hlo, Hhi.
  assert (Hlen : List.length perm = n).
  { rewrite (Permutation_length Hperm). apply length_seq. }
  assert (Hin : forall l, incl l perm -> Forall (fun i => (i < n)%nat) l).
  { intros l Hl. apply Forall_forall. intros i Hi.
    apply Hl in Hi. apply (Permutation_in _ Hperm) in Hi.
    apply in_seq in Hi. lia. }
  set (ind_test := firstn n_test perm).
  set (ind_train := firstn (n - n_test) (skipn n_test perm)).
  assert (Htrain : ind_train = skipn n_test perm).
  { unfold ind_train. apply firstn_all2. rewrite length_skipn. lia. }
  assert (Htest_in : incl ind_test perm).
  { intros i Hi. unfold ind_test in Hi.
    rewrite <- (firstn_skipn n_test perm). apply in_or_app. left. exact Hi. }
  assert (Htrain_in : incl ind_train perm).
  { intros i Hi. rewrite Htrain in Hi.
    rewrite <- (firstn_skipn n_test perm). apply in_or_app. right. exact Hi. }
  assert (Hboth : Permutation (ind_train ++ ind_test) (seq 0 n)).
  { rewrite Htrain. unfold ind_test.
    eapply Permutation_trans; [apply Permutation_app_comm |].
    rewrite firstn_skipn. exact Hperm. }
  assert (HX_test : Forall (fun i => (i < List.length X)%nat) ind_test)
    by (apply Hin; exact Htest_in).
  assert (HX_train : Forall (fun i => (i < List.length X)%nat) ind_train)
    by (apply Hin; exact Htrain_in).
  assert (Hy_test : Forall (fun i => (i < List.length y)%nat) ind_test)
    by (rewrite Hy; exact HX_test).
  assert (Hy_train : Forall (fun i => (i < List.length y)%nat) ind_train)
    by (rewrite Hy; exact HX_train).
  assert (Hl_test : List.length ind_test = n_test).
  { unfold ind_test. rewrite length_firstn. lia. }
  assert (Hl_train : List.length ind_train = (n - n_test)%nat).
  { rewrite Htrain, length_skipn. lia. }
  rewrite !picked_length by assumption.
  rewrite <- !picked_app, <- !picked_combine by assumption.
  rewrite <- picked_app.
  repeat split; try lia.
  - apply picked_permutation. exact Hboth.
  - apply picked_permutation. rewrite Hy. exact Hboth.
  - apply picked_permutation.
    rewrite length_combine, Hy, Nat.min_id. exact Hboth.
Qed.

Lemma notebook_split : wp notebook post_split.
Proof.
  notebook_unfold.
  repeat wp_step.
  all: unfold post_split, permutation_requests, permutations;
    try match goal with
        | H : Forall (train_entry _) _ |- _ =>
            let H1 := fresh "Hreq" in
            let H2 := fresh "Hperm" in
            destruct (train_entries_only H) as [_ [H1 [H2 _]]]
        end;
    cbn [flat_map permutation_request_of permutation_of entry_call entry_answer
         app];
    rewrite ?flat_map_app;
    cbn [flat_map permutation_request_of permutation_of entry_call entry_answer
         app];
    repeat match goal with
           | H : flat_map _ _ = [] |- _ => rewrite H
           end;
    cbn [app].
  all: split; [repeat constructor | try exact I].
  cbn [padded_docs encoded_y X_train X_test y_train y_test fst snd] in *.
  match goal with
  | H : negb (Nat.eqb _ _) = false |- _ =>
      apply negb_false_iff in H; apply Nat.eqb_eq in H
  end.
  split; [assumption |].
  split; [reflexivity |].
  eexists. split; [reflexivity |].
  unfold train_rows, test_rows.
  repeat split; assumption.
Qed.

Lemma permutations_answered : forall R (p : Prog R) W (h : handler W) (w : W)
    (permutation : list nat),
  In permutation (permutations (trace_of (run h p w))) ->
  exists seed n w',
    In (seed, n) (permutation_requests (trace_of (run h p w))) /\
    fst (h _ (RandomStatePermutation seed n) w') = inr permutation.
Proof.
  intros R p W h w permutation Hin.
  unfold permutations in Hin. apply in_flat_map in Hin.
  destruct Hin as [e [He Hr]].
  pose proof (run_answers p h w) as Hall.
  rewrite Forall_forall in Hall. destruct (Hall e He) as [w' Hw'].
  assert (Hreq : forall r, In r (permutation_request_of e) ->
            In r (permutation_requests (trace_of (run h p w)))).
  { intros r Hr'. unfold permutation_requests. apply in_flat_map.
    exists e. split; assumption. }
  destruct e as [X c a]. unfold permutation_of in Hr.
  unfold permutation_request_of in Hreq. simpl in *.
  destruct c; try contradiction.
  destruct a as [e | r']; [contradiction |].
  destruct Hr as [Hr | []]. subst r'.
  exists seed, n, w'. split; [apply Hreq; left; reflexivity | exact Hw'].
Qed.

(** C9. The split is drawn with the fixed seed 42: the generator is never
    asked with another seed, and a finished run asked it once, for a
    permutation of the row numbers of [padded_docs].  The four arrays are the
    rows of [padded_docs] and [encoded_y] at the places that permutation
    gives: the first fifth of it, rounded up, for the test set and the rest
    for the training set.  So two runs on the same [padded_docs] and
    [encoded_y] ask the generator the same question, and have the same four
    arrays when it gives the same answer, whatever else the libraries do: on
    a library whose seeded generator answers by the seed and the size alone,
    they have the same four arrays from whatever states they start.  The
    answer being a permutation of the row numbers, the test set has 20% of the
    rows, rounded up, and the two sets hold every row exactly once, rows of
    [X] staying with their rows of [y]. *)
Theorem train_test_split_deterministic_partition :
  (forall W (h : handler W) (w : W),
     Forall (fun r => fst r = 42%Z)
       (permutation_requests (trace_of (run h notebook w)))) /\
  (forall W (h : handler W) (w : W) (env : Env),
     result_of (run h notebook w) = inr env ->
     let t := trace_of (run h notebook w) in
     let n := List.length (padded_docs env) in
     List.length (encoded_y env) = n /\
     permutation_requests t = [(42%Z, n)] /\
     exists permutation,
       permutations t = [permutation] /\
       X_train env = picked (padded_docs env) (train_rows (2 # 10) n permutation) /\
       X_test env = picked (padded_docs env) (test_rows (2 # 10) n permutation) /\
       y_train env = picked (encoded_y env) (train_rows (2 # 10) n permutation) /\
       y_test env = picked (encoded_y env) (test_rows (2 # 10) n permutation)) /\
  (forall W (h : handler W) (w : W) (env : Env) (permutation : list nat),
     result_of (run h notebook w) = inr env ->
     In permutation (permutations (trace_of (run h notebook w))) ->
     Permutation permutation (seq 0 (List.length (padded_docs env))) ->
     (List.length (padded_docs env) <= 5 * List.length (X_test env))%nat /\
     (5 * List.length (X_test env) < List.length (padded_docs env) + 5)%nat /\
     (List.length (X_train env) + List.length (X_test env)
        = List.length (padded_docs env))%nat /\
     List.length (y_train env) = List.length (X_train env) /\
     List.length (y_test env) = List.length (X_test env) /\
     Permutation (X_train env ++ X_test env) (padded_docs env) /\
     Permutation (y_train env ++ y_test env) (encoded_y env) /\
     Permutation
       (combine (X_train env) (y_train env) ++ combine (X_test env) (y_test env))
       (combine (padded_docs env) (encoded_y env))) /\
  (forall W1 (h1 : handler W1) (w1 : W1) W2 (h2 : handler W2) (w2 : W2)
          (env1 env2 : Env),
     result_of (run h1 notebook w1) = inr env1 ->
     result_of (run h2 notebook w2) = inr env2 ->
     padded_docs env1 = padded_docs env2 ->
     encoded_y env1 = encoded_y env2 ->
     permutation_requests (trace_of (run h1 notebook w1))
       = permutation_requests (trace_of (run h2 notebook w2)) /\
     (permutations (trace_of (run h1 notebook w1))
        = permutations (trace_of (run h2 notebook w2)) ->
      X_train env1 = X_train env2 /\
      X_test env1 = X_test env2 /\
      y_train env1 = y_train env2 /\
      y_test env1 = y_test env2)) /\
  (forall W (h : handler W),
     (forall seed n w w',
        fst (h _ (RandomStatePermutation seed n) w)
          = fst (h _ (RandomStatePermutation seed n) w')) ->
     forall (w1 w2 : W) (env1 env2 : Env),
       result_of (run h notebook w1) = inr env1 ->
       result_of (run h notebook w2) = inr env2 ->
       padded_docs env1 = padded_docs env2 ->
       encoded_y env1 = encoded_y env2 ->
       X_train env1 = X_train env2 /\
       X_test env1 = X_test env2 /\
       y_train env1 = y_train env2 /\
       y_test env1 = y_test env2).
Proof.
  assert (Hfin : forall W (h : handler W) (w : W) (env : Env),
            result_of (run h notebook w) = inr env ->
            let t := trace_of (run h notebook w) in
            let n := List.length (padded_docs env) in
            List.length (encoded_y env) = n /\
            permutation_requests t = [(42%Z, n)] /\
            exists permutation,
              permutations t = [permutation] /\
              X_train env
                = picked (padded_docs env) (train_rows (2 # 10) n permutation) /\
              X_test env
                = picked (padded_docs env) (test_rows (2 # 10) n permutation) /\
              y_train env
                = picked (encoded_y env) (train_rows (2 # 10) n permutation) /\
              y_test env
                = picked (encoded_y env) (test_rows (2 # 10) n permutation)).
  { intros W h w env Henv t n.
    pose proof (@wp_sound _ _ _ notebook_split _ h w) as [_ Hpost].
    fold t in Hpost. rewrite Henv in Hpost. fold n in Hpost.
    destruct Hpost as [Hy [Hreq [permutation [Hp [H1 [H2 [H3 H4]]]]]]].
    split; [exact Hy |]. split; [exact Hreq |].
    exists permutation. split; [exact Hp |].
    apply take_inr_picked in H1, H2, H3, H4. repeat split; assumption. }
  assert (Hsame : forall W1 (h1 : handler W1) (w1 : W1) W2 (h2 : handler W2)
                         (w2 : W2) (env1 env2 : Env),
            result_of (run h1 notebook w1) = inr env1 ->
            result_of (run h2 notebook w2) = inr env2 ->
            padded_docs env1 = padded_docs env2 ->
            encoded_y env1 = encoded_y env2 ->
            permutations (trace_of (run h1 notebook w1))
              = permutations (trace_of (run h2 notebook w2)) ->
            X_train env1 = X_train env2 /\
            X_test env1 = X_test env2 /\
            y_train env1 = y_train env2 /\
            y_test env1 = y_test env2).
  { intros W1 h1 w1 W2 h2 w2 env1 env2 Henv1 Henv2 HX Hy Hsame.
    destruct (Hfin W1 h1 w1 env1 Henv1)
      as [_ [_ [p1 [Hp1 [A1 [B1 [C1 D1]]]]]]].
    destruct (Hfin W2 h2 w2 env2 Henv2)
      as [_ [_ [p2 [Hp2 [A2 [B2 [C2 D2]]]]]]].
    rewrite Hp1, Hp2 in Hsame. inversion Hsame. subst p2.
    rewrite A1, A2, B1, B2, C1, C2, D1, D2, HX, Hy. repeat split. }
  split; [| split; [exact Hfin | split; [| split]]].
  - intros W h w.
    pose proof (@wp_sound _ _ _ notebook_split _ h w) as [Hseed _]. exact Hseed.
  - intros W h w env permutation Henv Hin Hperm.
    destruct (Hfin W h w env Henv)
      as [Hy [_ [permutation' [Hp [H1 [H2 [H3 H4]]]]]]].
    rewrite Hp in Hin. destruct Hin as [Hin | []]. subst permutation'.
    rewrite H1, H2, H3, H4.
    apply split_rows_partition; assumption.
  - intros W1 h1 w1 W2 h2 w2 env1 env2 Henv1 Henv2 HX Hy.
    destruct (Hfin W1 h1 w1 env1 Henv1)
      as [_ [Hreq1 [p1 [Hp1 [A1 [B1 [C1 D1]]]]]]].
    destruct (Hfin W2 h2 w2 env2 Henv2)
      as [_ [Hreq2 [p2 [Hp2 [A2 [B2 [C2 D2]]]]]]].
    split.
    + rewrite Hreq1, Hreq2, HX. reflexivity.
    + apply Hsame; assumption.
  - intros W h Hseeded w1 w2 env1 env2 Henv1 Henv2 HX Hy.
    apply (Hsame W h w1 W h w2); try assumption.
    destruct (Hfin W h w1 env1 Henv1) as [_ [Hreq1 [p1 [Hp1 _]]]].
    destruct (Hfin W h w2 env2 Henv2) as [_ [Hreq2 [p2 [Hp2 _]]]].
    rewrite Hp1, Hp2. f_equal.
    destruct (@permutations_answered _ notebook _ h w1 p1)
      as [s1 [n1 [w1' [Hin1 Ha1]]]]; [rewrite Hp1; left; reflexivity |].
    destruct (@permutations_answered _ notebook _ h w2 p2)
      as [s2 [n2 [w2' [Hin2 Ha2]]]]; [rewrite Hp2; left; reflexivity |].
    rewrite Hreq1 in Hin1. rewrite Hreq2 in Hin2.
    destruct Hin1 as [Hin1 | []]. destruct Hin2 as [Hin2 | []].
    inversion Hin1. inversion Hin2. subst s1 n1 s2 n2.
    rewrite HX in Ha1. rewrite (Hseeded _ _ w1' w2') in Ha1.
    rewrite Ha1 in Ha2. inversion Ha2. reflexivity.
Qed.

Lemma train_test_split_deterministic_partition_witness :
  (exists env,
     result_of (run Demo.library notebook []) = inr env /\
     (List.length (padded_docs env) <= 5 * List.length (X_test env))%nat /\
     (5 * List.length (X_test env) < List.length (padded_docs env) + 5)%nat /\
     (List.length (X_train env) + List.length (X_test env)
        = List.length (padded_docs env))%nat /\
     List.length (y_train env) = List.length (X_train env) /\
     List.length (y_test env) = List.length (X_test env) /\
     Permutation (X_train env ++ X_test env) (padded_docs env) /\
     Permutation (y_train env ++ y_test env) (encoded_y env) /\
     Permutation
       (combine (X_train env) (y_train env) ++ combine (X_test env) (y_test env))
       (combine (padded_docs env) (encoded_y env))) /\
  (exists env1 env2,
     result_of (run Demo.library notebook []) = inr env1 /\
     result_of (run Demo.library notebook [("old.npy", NdInt [])]) = inr env2 /\
     X_train env1 = X_train env2 /\
     X_test env1 = X_test env2 /\
     y_train env1 = y_train env2 /\
     y_test env1 = y_test env2).
Proof.
  split.
  - eexists. split; [vm_compute; reflexivity |].
    apply (proj1 (proj2 (proj2 train_test_split_deterministic_partition))
             Demo.World Demo.library [] _ (Demo.rotation 42 10)).
    + vm_compute. reflexivity.
    + vm_compute. left. reflexivity.
    + change (Permutation ([2; 3; 4; 5; 6; 7; 8; 9] ++ [0; 1])
                ([0; 1] ++ [2; 3; 4; 5; 6; 7; 8; 9]))%nat.
      apply Permutation_app_comm.
  - do 2 eexists.
    split; [vm_compute; reflexivity |].
    split; [vm_compute; reflexivity |].
    apply (proj2 (proj2 (proj2 (proj2 train_test_split_deterministic_partition)))
             Demo.World Demo.library (fun seed n w w' => eq_refl)
             [] [("old.npy", NdInt [])]).
    + vm_compute. reflexivity.
    + vm_compute. reflexivity.
    + vm_compute. reflexivity.
    + vm_compute. reflexivity.
Defined.

(** ** Exceptions *)










(** ** The model *)

Lemma define_model_post : forall (vocab_size : nat) (embedding_matrix : matrixQ)
    (num_classes : nat),
  wp (define_model vocab_size embedding_matrix num_classes)
    (post_define vocab_size num_classes).
Proof.
  intros. notebook_unfold. repeat wp_step.
  all: unfold post_define; split;
    [ repeat constructor | try exact I; split; reflexivity ].
Qed.

(** C2. The model the notebook builds is a sequential stack of exactly seven
    layers, in the order Embedding, Conv1D, MaxPooling1D, Flatten, Dropout,
    Dense(relu), Dense(softmax); building it makes framework calls only, and
    the model of a finished run still has that topology. *)
Theorem model_is_seven_layer_sequential :
  forall W (h : handler W) (w : W) (n_vocab : nat) (matrix : matrixQ)
         (n_classes : nat),
    let o := run h (define_model n_vocab matrix n_classes) w in
    Forall (fun e => keras_call e = true) (trace_of o) /\
    (forall m, result_of o = inr m ->
       map layer_kind_of (layers m)
         = [KEmbedding n_vocab 100 40; KConv1D 128 3 relu; KMaxPooling1D 5;
            KFlatten; KDropout (3 # 10); KDense 128 relu;
            KDense n_classes softmax] /\
       map layer_name (layers m) = layer_names /\
       List.length (layers m) = 7%nat) /\
    (forall env, result_of (run h notebook w) = inr env ->
       map layer_kind_of (layers (model env))
         = topology (vocab_size env) (num_classes env) /\
       List.length (layers (model env)) = 7%nat).
Proof.
  intros W h w vs em nc o.
  pose proof (@wp_sound _ _ _ (define_model_post vs em nc) _ h w) as [Hk Hm].
  fold o in Hk, Hm.
  split; [exact Hk |]. split.
  - intros m Hres. rewrite Hres in Hm. destruct Hm as [Hkinds Hnames].
    repeat split; try assumption.
    rewrite <- (length_map layer_kind_of), Hkinds. reflexivity.
  - intros env Henv.
    pose proof (@wp_sound _ _ _ notebook_env _ h w) as Hpost.
    unfold post_env in Hpost. rewrite Henv in Hpost.
    destruct Hpost as [_ [_ [_ Hkinds]]].
    split; [exact Hkinds |].
    rewrite <- (length_map layer_kind_of), Hkinds. reflexivity.
Qed.

Lemma model_is_seven_layer_sequential_witness :
  exists env,
    result_of (run Demo.library notebook []) = inr env /\
    map layer_kind_of (layers (model env))
      = topology (vocab_size env) (num_classes env) /\
    List.length (layers (model env)) = 7%nat.
Proof.
  eexists. split; [vm_compute; reflexivity |].
  apply (proj2 (proj2 (model_is_seven_layer_sequential Demo.library [] 3
                         Demo.glove 4))).
  vm_compute. reflexivity.
Defined.

(** ** Loading and saving *)

(** C3. The dataset is read by one [pd.read_csv] call on
    [data/newsCorpora.csv] with a tab as delimiter, no header row, and the
    seven column names TITLE, URL, PUBLISHER, CATEGORY, STORY, HOSTNAME,
    TIMESTAMP in that order; no run reads a CSV in any other way. *)
Theorem dataset_read_tab_delimited_seven_columns :
  forall W (h : handler W) (w : W),
    let t := trace_of (run h notebook w) in
    (forall c, In c (read_csv_calls t) ->
       c = ("data/newsCorpora.csv",
            ["TITLE"; "URL"; "PUBLISHER"; "CATEGORY"; "STORY"; "HOSTNAME";
             "TIMESTAMP"],
            None, String (Ascii.ascii_of_nat 9) EmptyString)) /\
    (forall env, result_of (run h notebook w) = inr env ->
       read_csv_calls t = [the_read_csv_call]) /\
    List.length column_names = 7%nat /\
    NoDup column_names.
Proof.
  intros W h w t.
  pose proof (@wp_sound _ _ _ notebook_read _ h w) as [Hcalls Hdone].
  fold t in Hcalls, Hdone.
  repeat split.
  - intros c Hc. destruct Hcalls as [Hnone | Hone].
    + rewrite Hnone in Hc. destruct Hc.
    + rewrite Hone in Hc. destruct Hc as [Hc | []]. subst c. reflexivity.
  - intros env Henv. rewrite Henv in Hdone. exact Hdone.
  - repeat constructor; simpl; intuition discriminate.
Qed.

Lemma dataset_read_tab_delimited_seven_columns_witness :
  read_csv_calls (trace_of (run Demo.library notebook [])) = [the_read_csv_call].
Proof.
  eapply (proj1 (proj2 (dataset_read_tab_delimited_seven_columns Demo.library []))).
  vm_compute. reflexivity.
Defined.

(** C5. The notebook saves exactly five arrays with [np.save], under fixed
    relative paths: the embedding matrix under
    [./data/embeddings/docs-embedding-matrix], then the training and test
    splits under [./data/train/train_X.npy], [./data/train/train_Y.npy],
    [./data/test/test_X.npy] and [./data/test/test_Y.npy].  A run that stops
    early has saved the first few of them and nothing else. *)
Theorem notebook_saves_five_arrays :
  forall W (h : handler W) (w : W),
    let t := trace_of (run h notebook w) in
    (exists k, map saved_path (np_saves t) = firstn k saved_paths) /\
    (forall env, result_of (run h notebook w) = inr env ->
       np_saves t =
         [("./data/embeddings/docs-embedding-matrix",
           NdFloat (embedding_matrix env), false);
          ("./data/train/train_X.npy", NdInt (X_train env), true);
          ("./data/train/train_Y.npy", NdFloat (y_train env), true);
          ("./data/test/test_X.npy", NdInt (X_test env), true);
          ("./data/test/test_Y.npy", NdFloat (y_test env), true)]) /\
    List.length saved_paths = 5%nat /\
    NoDup saved_paths.
Proof.
  intros W h w t.
  pose proof (@wp_sound _ _ _ notebook_saves _ h w) as [Hprefix Hdone].
  fold t in Hprefix, Hdone.
  repeat split.
  - exact Hprefix.
  - intros env Henv. rewrite Henv in Hdone. exact Hdone.
  - repeat constructor; simpl; intuition discriminate.
Qed.

Lemma notebook_saves_five_arrays_witness :
  exists env,
    result_of (run Demo.library notebook []) = inr env /\
    np_saves (trace_of (run Demo.library notebook [])) = saved_arrays env.
Proof.
  eexists. split; [vm_compute; reflexivity |].
  apply (proj1 (proj2 (notebook_saves_five_arrays Demo.library []))).
  vm_compute. reflexivity.
Defined.

(** ** Exceptions are not caught *)

(** [try ... except] does catch: the property below is not one of every
    program. *)
Lemma try_except_catches :
  result_of (run Demo.library_without_file
               (TryExcept (Call (ReadCsv "data/newsCorpora.csv" column_names None tab))
                  (fun _ => Ret Demo.corpus)) [])
    = inr Demo.corpus.
Proof. reflexivity. Qed.












(** An out-of-range index raised by the callback's own indexing: with one
    label only, [labels[ix]] fails. *)
Lemma classify_index_error :
  result_of (run Demo.library
               (classify Demo.vocabulary Sequential ["b"] "Markets rally") [])
    = inl IndexError.
Proof. reflexivity. Qed.

(** ** Labels *)

Lemma traverse_length : forall A B (f : A -> exn + B) (l : list A) (bs : list B),
  traverse f l = inr bs -> List.length bs = List.length l.
Proof.
  intros A B f l. induction l as [| a l IH]; intros bs H; simpl in H.
  - inversion H. reflexivity.
  - destruct (f a) as [e | b]; simpl in H; [discriminate |].
    destruct (traverse f l) as [e | bs']; simpl in H; [discriminate |].
    inversion H. simpl. rewrite (IH bs' eq_refl). reflexivity.
Qed.

Lemma one_hot_category : forall c : Category,
  is_one_hot 4 (one_hot (List.length categories) (category_index c)).
Proof.
  intros c. split; [destruct c; reflexivity |].
  exists (category_index c). split; [destruct c; simpl; lia |].
  intros j Hj.
  destruct j as [| [| [| [| j]]]]; [| | | | lia]; destruct c; reflexivity.
Qed.

Lemma dummy_encode_labels_spec : forall (df : DataFrame) (label : string)
    (encoded : matrixQ) (labs : list string),
  dummy_encode_labels df label = inr (encoded, labs) ->
  labs = ["b"; "e"; "m"; "t"] /\
  List.length encoded = List.length (df_rows df) /\
  Forall (is_one_hot 4) encoded.
Proof.
  intros df label encoded labs H. unfold dummy_encode_labels in H.
  unfold df_column in H.
  destruct (position label (df_columns df)) as [j |]; simpl in H; [| discriminate].
  destruct (traverse parse_category _) as [e | cats] eqn:Hcats; simpl in H;
    [discriminate |].
  inversion H. subst. clear H.
  apply traverse_length in Hcats. rewrite length_map in Hcats.
  repeat split.
  - rewrite length_map. exact Hcats.
  - apply Forall_forall. intros v Hv. apply in_map_iff in Hv.
    destruct Hv as [c [Hc _]]. subst v. apply one_hot_category.
Qed.

Lemma encoded_labels_answered : forall R (p : Prog R) W (h : handler W) (w : W)
    (d : DataFrame) (label : string) (r : matrixQ * list string),
  In (d, label, r) (encoded_labels (trace_of (run h p w))) ->
  exists w', fst (h _ (DummyEncodeLabels d label) w') = inr r.
Proof.
  intros R p W h w d label r Hin.
  unfold encoded_labels in Hin. apply in_flat_map in Hin.
  destruct Hin as [e [He Hr]].
  pose proof (run_answers p h w) as Hall.
  rewrite Forall_forall in Hall. destruct (Hall e He) as [w' Hw'].
  destruct e as [X c a]. unfold encoded_labels_of in Hr. simpl in *.
  destruct c; try contradiction.
  destruct a as [e | r']; [contradiction |].
  destruct Hr as [Hr | []]. inversion Hr. subst.
  exists w'. exact Hw'.
Qed.

(** C7. There are exactly four category labels; every encoded label is a
    one-hot vector of length four; and, the label encoder of the library being
    this one, the output layer of the model has
    [num_classes = len(labels) = 4] units. *)
Theorem four_labels_one_hot_four_units :
  categories = [Business; Entertainment; Health; ScienceTechnology] /\
  (forall (df : DataFrame) (label : string) (encoded : matrixQ)
          (labs : list string),
     dummy_encode_labels df label = inr (encoded, labs) ->
     labs = ["b"; "e"; "m"; "t"] /\
     List.length encoded = List.length (df_rows df) /\
     Forall (is_one_hot 4) encoded) /\
  (forall W (h : handler W),
     (forall d label w,
        fst (h _ (DummyEncodeLabels d label) w) = dummy_encode_labels d label) ->
     forall (w : W) (env : Env),
       result_of (run h notebook w) = inr env ->
       List.length (labels env) = 4%nat /\
       num_classes env = List.length (labels env) /\
       Forall (is_one_hot 4) (encoded_y env) /\
       exists hidden,
         map layer_kind_of (layers (model env)) = hidden ++ [KDense 4 softmax]).
Proof.
  split; [reflexivity |].
  split; [exact dummy_encode_labels_spec |].
  intros W h Hlib w env Henv.
  pose proof (@wp_sound _ _ _ notebook_env _ h w) as Hpost.
  unfold post_env in Hpost. rewrite Henv in Hpost.
  destruct Hpost as [Henc [_ [Hnc Hkinds]]].
  destruct (@encoded_labels_answered _ notebook _ h w (df env) "CATEGORY"
              (encoded_y env, labels env)) as [w' Hw'].
  { rewrite Henc. left. reflexivity. }
  rewrite Hlib in Hw'.
  apply dummy_encode_labels_spec in Hw'. destruct Hw' as [Hlabs [_ Hhot]].
  assert (H4 : List.length (labels env) = 4%nat) by (rewrite Hlabs; reflexivity).
  repeat split; try assumption.
  exists (firstn 6 (topology (vocab_size env) (num_classes env))).
  rewrite Hkinds, Hnc, H4. reflexivity.
Qed.

Lemma four_labels_one_hot_four_units_witness :
  exists env,
    result_of (run Demo.library notebook []) = inr env /\
    List.length (labels env) = 4%nat /\
    num_classes env = List.length (labels env) /\
    Forall (is_one_hot 4) (encoded_y env) /\
    exists hidden,
      map layer_kind_of (layers (model env)) = hidden ++ [KDense 4 softmax].
Proof.
  eexists. split; [vm_compute; reflexivity |].
  apply (proj2 (proj2 four_labels_one_hot_four_units) Demo.World Demo.library
           (fun d label w => eq_refl) []).
  vm_compute. reflexivity.
Defined.

(** ** Training keeps the embedding *)

(** Every model that is trained or evaluated carries the loss name given to
    [compile], on a softmax output layer. *)
Lemma trained_models_compiled : forall W (h : handler W) (w : W),
  let t := trace_of (run h notebook w) in
  Forall (fun m => loss m = Some "binary_crossentropy" /\
                   metrics m = ["acc"] /\
                   exists hidden nc,
                     map layer_kind_of (layers m) = hidden ++ [KDense nc softmax])
    (trained_models t ++ evaluated_models t).
Proof.
  intros W h w t.
  pose proof (@wp_sound _ _ _ notebook_model _ h w) as [Hbuilt [Hlike _]].
  fold t in Hbuilt, Hlike.
  destruct (trained_models t ++ evaluated_models t) as [| m ms] eqn:Hms;
    [constructor |].
  destruct Hbuilt as [em [kept [_ Hset]]]; [discriminate |].
  destruct (Hlike _ _ _ Hset) as [em' [nc [_ [_ [_ [Hall _]]]]]].
  eapply Forall_impl; [| exact Hall].
  intros m' [Hk [_ [_ [Hl Hm]]]].
  split; [exact Hl |]. split; [exact Hm |].
  exists (firstn 6 (topology (List.length em') nc)), nc.
  rewrite Hk. reflexivity.
Qed.






(** ** Further properties of the notebook's code *)

(** *** The validation line *)

Lemma metric_pieces_from : forall (names before_n : list string)
    (scores before_s : list Q),
  List.length before_n = List.length before_s ->
  traverse (metric_piece (before_n ++ names) (before_s ++ scores))
    (seq (List.length before_n) (List.length names))
  = if Nat.leb (List.length names) (List.length scores)
    then inr (map metric_text (combine names scores))
    else inl IndexError.
Proof.
  induction names as [| n ns IH]; intros before_n scores before_s Hlen.
  - reflexivity.
  - cbn [List.length seq traverse].
    unfold metric_piece at 1. unfold index.
    rewrite nth_error_app2 by lia. rewrite Nat.sub_diag. cbn [nth_error and_then].
    rewrite Hlen. rewrite nth_error_app2 by lia. rewrite Nat.sub_diag.
    destruct scores as [| s ss]; [reflexivity |].
    cbn [nth_error and_then List.length Nat.leb].
    specialize (IH (before_n ++ [n]) ss (before_s ++ [s])).
    rewrite !length_app, <- !app_assoc in IH. simpl in IH.
    rewrite Nat.add_1_r in IH. rewrite <- Hlen.
    rewrite IH by lia.
    destruct (Nat.leb (List.length ns) (List.length ss)); reflexivity.
Qed.

(** X4. The validation line has one [name=score] part per metric name, in
    order, joined by ["; "]: scores beyond the names are ignored, and with
    fewer scores than names the line is not built at all, [scores[i]] being
    out of range. *)
Theorem validation_results_by_names : forall (m : Model) (scores : list Q),
  ((List.length (metrics_names m) <= List.length scores)%nat ->
   validation_results m scores
     = inr (Lit "Validation results: "
              :: join (Lit "; ")
                   (map metric_text (combine (metrics_names m) scores)))) /\
  ((List.length scores < List.length (metrics_names m))%nat ->
   validation_results m scores = inl IndexError).
Proof.
  intros m scores. unfold validation_results.
  change (traverse (metric_piece (metrics_names m) scores)
            (seq 0 (List.length (metrics_names m))))
    with (traverse (metric_piece ([] ++ metrics_names m) ([] ++ scores))
            (seq (List.length (@nil string)) (List.length (metrics_names m)))).
  rewrite metric_pieces_from by reflexivity.
  split; intros Hlen.
  - apply Nat.leb_le in Hlen. rewrite Hlen. reflexivity.
  - apply Nat.leb_gt in Hlen. rewrite Hlen. reflexivity.
Qed.

Lemma validation_results_by_names_witness :
  validation_results (compile Sequential (RMSprop (1 # 1000))
                        "binary_crossentropy" ["acc"])
    [1 # 4; 9 # 10; 1 # 2]%Q
  = inr [Lit "Validation results: ";
         Fmt (VStr "loss") ""; Lit "="; Fmt (VFloat (1 # 4)) ".5f";
         Lit "; ";
         Fmt (VStr "acc") ""; Lit "="; Fmt (VFloat (9 # 10)) ".5f"] /\
  validation_results (compile Sequential (RMSprop (1 # 1000))
                        "binary_crossentropy" ["acc"])
    [1 # 4]%Q
  = inl IndexError.
Proof.
  split.
  - refine (proj1 (validation_results_by_names
                     (compile Sequential (RMSprop (1 # 1000))
                        "binary_crossentropy" ["acc"])
                     [1 # 4; 9 # 10; 1 # 2]%Q) _).
    simpl. lia.
  - refine (proj2 (validation_results_by_names
                     (compile Sequential (RMSprop (1 # 1000))
                        "binary_crossentropy" ["acc"])
                     [1 # 4]%Q) _).
    simpl. lia.
Defined.

(** *** The callback *)

(** X7. When several classes share the largest probability, [classify]
    reports the first of them: the printed confidence is the largest
    probability and every class before the printed one has a strictly smaller
    probability. *)
Theorem classify_breaks_ties_first :
  forall W (h : handler W) (tokenizer : Tokenizer) (model : Model)
         (labels : list string) (text : string) (w w1 w2 : W)
         (encoded : matrixZ) (probs : list Q),
    h _ (TextsToSequences tokenizer [text]) w = (inr encoded, w1) ->
    h _ (Predict model (pad_sequences encoded 40 post pre 0)) w1
      = (inr [probs], w2) ->
    (forall items w', fst (h _ (PyPrint items) w') = inr tt) ->
    List.length probs = List.length labels ->
    probs <> [] ->
    exists (ix : nat) (label : string) (confidence : Q),
      printed (trace_of (run h (classify tokenizer model labels text) w)) =
        [[Fmt (VArr (NdFloat [probs])) ""];
         [Lit "Predicted class: '"; Fmt (VStr label) "";
          Lit "' with confidence "; Fmt (VFloat confidence) ".2%"]] /\
      nth_error labels ix = Some label /\
      nth_error probs ix = Some confidence /\
      (forall j p, nth_error probs j = Some p -> (p <= confidence)%Q) /\
      (forall j p, (j < ix)%nat -> nth_error probs j = Some p ->
                   (p < confidence)%Q).
Proof.
  intros W h tokenizer model labels text w w1 w2 encoded probs
    Htok Hpred Hprint Hlen Hne.
  destruct (np_argmax_row Hne) as [ix [c [Hix [Hc [Hmax Hfirst]]]]].
  assert (Hlt : (ix < List.length labels)%nat).
  { rewrite <- Hlen. apply nth_error_Some. rewrite Hc. discriminate. }
  destruct (nth_error labels ix) as [label |] eqn:Hlabel;
    [| apply nth_error_Some in Hlt; congruence].
  exists ix, label, c.
  split; [| repeat split; try assumption; try reflexivity].
  - unfold classify, trace_of. simpl.
    rewrite Htok. simpl. rewrite Hpred. simpl.
    print_returns Hprint.
    rewrite run_lift, Hix. simpl.
    rewrite run_lift. unfold index at 1. rewrite Hlabel. simpl.
    rewrite run_lift. unfold index. rewrite Hc. simpl.
    print_returns Hprint.
    reflexivity.
  - intros j p Hp. apply Hmax. eapply nth_error_In. exact Hp.
Qed.

Lemma classify_breaks_ties_first_witness :
  exists (ix : nat) (label : string) (confidence : Q),
    printed (trace_of (run Edge.library_tie
                         (classify Demo.vocabulary Sequential
                            ["b"; "e"; "m"; "t"] "Markets rally") [])) =
      [[Fmt (VArr (NdFloat [Edge.tie])) ""];
       [Lit "Predicted class: '"; Fmt (VStr label) "";
        Lit "' with confidence "; Fmt (VFloat confidence) ".2%"]] /\
    nth_error ["b"; "e"; "m"; "t"] ix = Some label /\
    nth_error Edge.tie ix = Some confidence /\
    (forall j p, nth_error Edge.tie j = Some p -> (p <= confidence)%Q) /\
    (forall j p, (j < ix)%nat -> nth_error Edge.tie j = Some p ->
                 (p < confidence)%Q).
Proof.
  apply (@classify_breaks_ties_first Demo.World Edge.library_tie
           Demo.vocabulary Sequential ["b"; "e"; "m"; "t"] "Markets rally"
           [] [] [] [[13; 2]%Z] Edge.tie).
  - reflexivity.
  - reflexivity.
  - intros items w'. reflexivity.
  - reflexivity.
  - discriminate.
Defined.

Lemma classify_input_of_answer : forall tokenizer model labels text,
  wp (classify tokenizer model labels text)
    (fun t _ =>
       forall te, In te (tokenized t) ->
         predict_inputs t = [pad_sequences (snd te) 40 post pre 0]).
Proof.
  intros. unfold classify.
  repeat wp_step; simpl; intros te Hte; try contradiction;
    destruct Hte as [Hte | []]; subst te; reflexivity.
Qed.

(** X2. A headline in which the tokenizer knows no word (the empty headline
    among them) is no error of [classify]'s own: the model is asked about one
    row of forty zeros, whatever it then does, and when it answers that row
    as it answers any other and printing works, [classify] prints the two
    lines and returns. *)
Theorem classify_unknown_words_all_padding :
  forall W (h : handler W) (tokenizer : Tokenizer) (model : Model)
         (labels : list string) (text : string) (w w1 : W),
    h _ (TextsToSequences tokenizer [text]) w = (inr [[]], w1) ->
    predict_inputs (trace_of (run h (classify tokenizer model labels text) w))
      = [[repeat 0%Z 40]] /\
    (forall (w2 : W) (probs : list Q),
       h _ (Predict model [repeat 0%Z 40]) w1 = (inr [probs], w2) ->
       (forall items w', fst (h _ (PyPrint items) w') = inr tt) ->
       List.length probs = List.length labels ->
       probs <> [] ->
       result_of (run h (classify tokenizer model labels text) w) = inr tt /\
       raised (trace_of (run h (classify tokenizer model labels text) w)) = [] /\
       List.length
         (printed (trace_of (run h (classify tokenizer model labels text) w)))
         = 2%nat).
Proof.
  intros W h tokenizer model labels text w w1 Htok. split.
  - pose proof (@wp_sound _ _ _ (classify_input_of_answer tokenizer model labels text)
                  _ h w) as H.
    apply (H ([text], [[]])).
    unfold classify, trace_of. simpl. rewrite Htok.
    unfold after. simpl. left. reflexivity.
  - intros w2 probs Hpred Hprint Hlen Hne.
    destruct (np_argmax_row Hne) as [ix [c [Hix [Hc _]]]].
    assert (Hlt : (ix < List.length labels)%nat).
    { rewrite <- Hlen. apply nth_error_Some. rewrite Hc. discriminate. }
    destruct (nth_error labels ix) as [label |] eqn:Hlabel;
      [| apply nth_error_Some in Hlt; congruence].
    assert (Hrun : exists t w',
      run h (classify tokenizer model labels text) w = (t, (inr tt, w')) /\
      raised t = [] /\ List.length (printed t) = 2%nat).
    { unfold classify. simpl.
      rewrite Htok. simpl.
      simpl in Hpred. rewrite Hpred. simpl.
      print_returns Hprint.
      rewrite run_lift, Hix. simpl.
      rewrite run_lift. unfold index at 1. rewrite Hlabel. simpl.
      rewrite run_lift. unfold index. rewrite Hc. simpl.
      print_returns Hprint.
      do 2 eexists. split; [reflexivity |]. split; reflexivity. }
    destruct Hrun as [t [w' [Hrun [Hr Hp]]]].
    unfold result_of, trace_of. rewrite Hrun. simpl.
    split; [reflexivity |]. split; assumption.
Qed.

Lemma classify_unknown_words_all_padding_witness :
  predict_inputs
    (trace_of (run Edge.library_no_known_word
                 (classify Demo.vocabulary Sequential ["b"; "e"; "m"; "t"] "") []))
    = [[repeat 0%Z 40]] /\
  result_of (run Edge.library_no_known_word
               (classify Demo.vocabulary Sequential ["b"; "e"; "m"; "t"] "") [])
    = inr tt.
Proof.
  split.
  - apply (proj1 (@classify_unknown_words_all_padding Demo.World
                    Edge.library_no_known_word Demo.vocabulary Sequential
                    ["b"; "e"; "m"; "t"] "" [] [] eq_refl)).
  - apply (proj2 (@classify_unknown_words_all_padding Demo.World
                    Edge.library_no_known_word Demo.vocabulary Sequential
                    ["b"; "e"; "m"; "t"] "" [] [] eq_refl)
             [] Demo.distribution).
    + reflexivity.
    + intros items w'. reflexivity.
    + reflexivity.
    + discriminate.
Defined.

(** X3. Asking for a classification changes nothing: in every run,
    [classify] makes at most four calls, each to the tokenizer, to
    [model.predict] or to [print]; it saves no array, reads no CSV, and neither
    trains nor evaluates the model.  It prints at most two lines, and none
    unless the model answered. *)
Theorem classify_only_queries :
  forall W (h : handler W) (tokenizer : Tokenizer) (model : Model)
         (labels : list string) (text : string) (w : W),
    let t := trace_of (run h (classify tokenizer model labels text) w) in
    Forall (fun e => classify_call e = true) t /\
    (List.length t <= 4)%nat /\
    np_saves t = [] /\
    read_csv_calls t = [] /\
    trained_models t = [] /\
    evaluated_models t = [] /\
    (List.length (printed t) <= 2)%nat /\
    (printed t <> [] -> predictions t <> []).
Proof.
  intros W h tokenizer model labels text w t. subst t.
  apply (@wp_sound _ (classify tokenizer model labels text)
           (fun t _ =>
              Forall (fun e => classify_call e = true) t /\
              (List.length t <= 4)%nat /\
              np_saves t = [] /\
              read_csv_calls t = [] /\
              trained_models t = [] /\
              evaluated_models t = [] /\
              (List.length (printed t) <= 2)%nat /\
              (printed t <> [] -> predictions t <> []))).
  unfold classify.
  repeat wp_step; simpl.
  all: split; [repeat constructor |].
  all: split; [lia |].
  all: do 4 (split; [reflexivity |]).
  all: split; [lia |].
  all: intros Hp; try (exfalso; apply Hp; reflexivity); discriminate.
Qed.

(** *** Finished runs *)









(** *** Training and evaluation data *)

Lemma wp_foldM_indices : forall S A (f : S -> A -> Prog S) (E : entry -> Prop)
    (Inv : S -> Prop) (g : A -> list (nat * nat)) (l : list A) (s : S),
  Inv s ->
  (forall s a, Inv s ->
     wp (f s a) (fun t o =>
       Forall E t /\
       match o with
       | inr s' => Inv s' /\ train_indices t = g a
       | inl _ => True
       end)) ->
  wp (foldM f l s) (fun t o =>
    Forall E t /\
    match o with
    | inr s' => Inv s' /\ train_indices t = flat_map g l
    | inl _ => True
    end).
Proof.
  intros S A f E Inv g l. induction l as [| a l IH]; intros s Hs Hf; simpl.
  - split; [constructor | split; [exact Hs | reflexivity]].
  - eapply wp_mono; [| apply (Hf s a Hs)].
    intros t [e | s'] [Ht Ho]; simpl.
    + split; [exact Ht | exact I].
    + destruct Ho as [Hs' Hg].
      eapply wp_mono; [| apply (IH s' Hs' Hf)].
      intros t' [e | s''] [Ht' Ho']; (split; [apply Forall_app; split; assumption |]).
      * exact I.
      * destruct Ho' as [Hs'' Hg']. split; [exact Hs'' |].
        unfold train_indices in *. rewrite flat_map_app, Hg, Hg'. reflexivity.
Qed.

(** A training that runs to its end makes the steps of [fit_schedule], each
    on the same data, and returns a model that differs in trained variables
    only. *)
Lemma fit_spec_on : forall (m : Model) (X : matrixZ) (y : matrixQ)
    (batch_size epochs : nat),
  wp (fit m X y batch_size epochs) (fun t o =>
    Forall (train_entry_on X y batch_size m) t /\
    match o with
    | inr m' =>
        same_but_trained m m' /\
        train_indices t = fit_schedule (List.length X) batch_size epochs
    | inl _ => True
    end).
Proof.
  intros m X y batch_size epochs. unfold fit, fit_schedule.
  apply wp_foldM_indices with (Inv := same_but_trained m);
    [apply same_but_trained_refl |].
  intros m1 epoch H1.
  apply wp_foldM_indices with (Inv := same_but_trained m); [exact H1 |].
  intros m2 step H2. unfold train_step. simpl. split.
  - intros e. split; [| exact I].
    constructor; [| constructor].
    exists m2, epoch, step, (inl e). split; [reflexivity | exact H2].
  - intros new. split; [| split].
    + constructor; [| constructor].
      exists m2, epoch, step, (inr new). split; [reflexivity | exact H2].
    + eapply same_but_trained_trans; [exact H2 |].
      repeat split. simpl. apply set_trainable_weights_frozen.
    + reflexivity.
Qed.

Lemma wp_bind_fit_on : forall R (m : Model) (X : matrixZ) (y : matrixQ)
    (batch_size epochs : nat) (k : Model -> Prog R)
    (Q : trace -> exn + R -> Prop),
  (forall t e, Forall (train_entry_on X y batch_size m) t -> Q t (inl e)) ->
  (forall t m', Forall (train_entry_on X y batch_size m) t ->
     same_but_trained m m' ->
     train_indices t = fit_schedule (List.length X) batch_size epochs ->
     wp (k m') (fun t' o => Q (t ++ t') o)) ->
  wp (Bind (fit m X y batch_size epochs) k) Q.
Proof.
  intros R m X y batch_size epochs k Q He Hk. simpl.
  eapply wp_mono; [| apply fit_spec_on].
  intros t [e | m'] [Ht Hm]; simpl; [auto |].
  destruct Hm as [Hm Hi]. auto.
Qed.

Ltac wp_step_on :=
  lazymatch goal with
  | |- wp (Bind (fit _ _ _ _ _) _) _ =>
      apply wp_bind_fit_on;
      [ let t := fresh "t_fit" in let Ht := fresh "Hfit" in
        intros t ? Ht
      | let t := fresh "t_fit" in let Ht := fresh "Hfit" in
        let Hm := fresh "Hmodel" in let Hi := fresh "Hsteps" in
        intros t ? Ht Hm Hi; cbv beta ]
  | |- _ => wp_step
  end.

Lemma train_entries_on_queries : forall (X : matrixZ) (y : matrixQ)
    (batch_size : nat) (m : Model) (t : trace),
  Forall (train_entry_on X y batch_size m) t ->
  flat_map np_save_of t = [] /\
  flat_map evaluation_of t = [] /\
  Forall (fun d => d = (X, y, batch_size)) (flat_map train_data_of t).
Proof.
  intros X y batch_size m t H. induction H as [| e t He Ht [IH1 [IH2 IH3]]].
  - repeat split; constructor.
  - destruct He as [m' [ep [st [ans [He Hm]]]]]. subst e.
    simpl. rewrite IH1, IH2.
    repeat split; try reflexivity.
    constructor; [reflexivity | exact IH3].
Qed.

Lemma same_but_trained_flags : forall (m0 m : Model),
  same_but_trained m0 m -> layer_flags m = layer_flags m0.
Proof.
  intros m0 m [Hmap _]. unfold layer_flags.
  assert (H : forall ls, map (fun l => (layer_name l, trainable l)) ls
                         = map (fun v => (fst (fst (fst v)), snd (fst v)))
                             (map frozen_view ls)).
  { intros ls. rewrite map_map. reflexivity. }
  rewrite !H, Hmap. reflexivity.
Qed.

Lemma notebook_training : wp notebook post_training.
Proof.
  notebook_unfold.
  repeat wp_step_on.
  all: unfold post_training, train_data, evaluations, train_indices, np_saves.
  all: try match goal with
           | H : Forall (train_entry_on _ _ _ _) _ |- _ =>
               destruct (train_entries_on_queries H) as [Hs [He Hd]]
           end.
  all: simpl; rewrite ?flat_map_app; simpl;
       repeat match goal with
              | H : flat_map _ _ = [] |- _ => rewrite H
              end;
       simpl; rewrite ?app_nil_r.
  all: split;
    [ intros X y batch_size Hin;
      first
        [ contradiction
        | rewrite Forall_forall in Hd; apply Hd in Hin;
          inversion Hin; subst;
          split; [reflexivity |];
          split; repeat first [left; reflexivity | right] ]
    | ].
  all: split;
    [ intros m X y Hin;
      first
        [ contradiction
        | destruct Hin as [Hin | []]; inversion Hin; subst;
          split; repeat first [left; reflexivity | right] ]
    | ].
  all: try exact I.
  split; [exact Hd |].
  split; [reflexivity |].
  split; [exact Hsteps |].
  rewrite (same_but_trained_flags Hmodel). reflexivity.
Qed.









(** X8. Training neither freezes nor unfreezes a layer: in the model of a
    finished run the embedding is the one layer that is not trainable, and
    the six layers after it are. *)
Theorem only_embedding_frozen_after_training :
  forall W (h : handler W) (w : W) (env : Env),
    result_of (run h notebook w) = inr env ->
    layer_flags (model env)
      = [("embed", false); ("conv_1", true); ("maxpool_1", true);
         ("flat_1", true); ("dropout_1", true); ("dense_1", true);
         ("out_1", true)] /\
    List.length (filter (fun l => negb (trainable l)) (layers (model env)))
      = 1%nat.
Proof.
  intros W h w env Henv.
  pose proof (@wp_sound _ _ _ notebook_training _ h w) as [_ [_ Hend]].
  rewrite Henv in Hend. destruct Hend as [_ [_ [_ Hflags]]].
  split; [exact Hflags |].
  assert (H : forall ls,
            List.length (filter (fun l => negb (trainable l)) ls)
            = List.length (filter (fun f => negb (snd f))
                             (map (fun l => (layer_name l, trainable l)) ls))).
  { induction ls as [| l ls IH]; [reflexivity |].
    simpl. destruct (trainable l); simpl; rewrite IH; reflexivity. }
  rewrite H. unfold layer_flags in Hflags. rewrite Hflags. reflexivity.
Qed.

Lemma only_embedding_frozen_after_training_witness :
  exists env,
    result_of (run Demo.library notebook []) = inr env /\
    layer_flags (model env)
      = [("embed", false); ("conv_1", true); ("maxpool_1", true);
         ("flat_1", true); ("dropout_1", true); ("dense_1", true);
         ("out_1", true)] /\
    List.length (filter (fun l => negb (trainable l)) (layers (model env)))
      = 1%nat.
Proof.
  eexists. split; [vm_compute; reflexivity |].
  apply (@only_embedding_frozen_after_training Demo.World Demo.library []).
  vm_compute. reflexivity.
Defined.
